(** * Staking messages of the dao module: stateless validation, signers,
      JSON transcoding of MsgCreateValidator, and the indexed delegation.

    The development follows [x/dao/types/content.go].  Messages are records,
    addresses are byte strings, amounts are unbounded integers, and every
    [ValidateBasic] is the sequence of guarded early returns of the Go
    method, returning [None] for Go's [nil] error. *)

From Stdlib Require Import ZArith List.
From Stdlib.Strings Require Import Byte.
From Stdlib Require Import Ascii.
From Stdlib Require DecimalString DecimalZ DecimalPos.
From stdpp Require Import base decidable option list countable gmap strings.

Local Open Scope Z_scope.

#[local] Set Warnings "-register-all".

(** ** Framework types used by the messages *)

Module sdk.

(** Byte slices.  Go's [nil] slice and the empty slice are both the empty
    list: [bytes.Equal] and [len] do not tell them apart. *)
Definition bytes := list Byte.byte.

#[global] Instance byte_eq_dec : EqDecision Byte.byte := Byte.byte_eq_dec.

#[global] Instance byte_countable : Countable Byte.byte :=
  inj_countable Byte.to_N Byte.of_N Byte.of_to_N.

(** [bytes.Equal] *)
Definition bytes_Equal (a b : bytes) : bool := bool_decide (a = b).

(** Modelled from the spec: the address types of the framework, whose
    declarations are not among the sources.  An account address and a
    validator address are both byte slices; the conversion
    [sdk.AccAddress(valAddr)] keeps the bytes. *)
Definition AccAddress := bytes.
Definition ValAddress := bytes.

Definition AccAddress_of_Val (va : ValAddress) : AccAddress := va.

(** [Bytes()] hands out the underlying slice. *)
Definition Bytes (a : bytes) : bytes := a.

(** [Empty()] holds of the nil address and of the address with no bytes. *)
Definition Empty (a : bytes) : bool := bytes_Equal (Bytes a) [].

(** [Equals]: two empty addresses are equal, otherwise compare the bytes. *)
Definition Equals (a b : bytes) : bool :=
  if Empty a && Empty b then true else bytes_Equal (Bytes a) (Bytes b).

(** Modelled from the spec: [sdk.Int], an arbitrary-precision integer
    (the spec's numeric policy); its declaration is not among the sources.
    The model covers constructed integers. *)
Definition Int := Z.

Definition ZeroInt : Int := 0.
Definition Int_LTE (i j : Int) : bool := i <=? j.
Definition Int_LT (i j : Int) : bool := i <? j.
Definition Int_GT (i j : Int) : bool := i >? j.

(** Modelled from the spec: [sdk.Dec], an arbitrary-precision decimal; its
    declaration is not among the sources.  A constructed decimal is the
    integer obtained by scaling the value by [10 ^ Precision]. *)
Definition Dec := Z.

Definition Precision : Z := 18.
Definition precisionReuse : Z := 10 ^ Precision.

Definition ZeroDec : Dec := 0.
Definition OneDec : Dec := precisionReuse.
Definition Dec_GT (d e : Dec) : bool := d >? e.
Definition Dec_LT (d e : Dec) : bool := d <? e.

(** The decimal [n / 10 ^ k], for [0 <= k <= Precision]. *)
Definition NewDecWithPrec (n k : Z) : Dec := n * 10 ^ (Precision - k).

(** [sdk.Coin] *)
Record Coin := mkCoin { Denom : string; Amount : Int }.

(** Modelled from the spec: errors are typed by kind plus a codespace
    discriminator (section 7).  The codespace type, the module's default
    codespace and the numeric codes live in files that are not among the
    sources; the default codespace is kept symbolic. *)
Inductive CodespaceType :=
| DefaultCodespace
| Codespace (name : string).

(** The one code the messages pass to [NewError] themselves. *)
Inductive CodeType :=
| CodeInvalidInput.

End sdk.

Export sdk.

(** ** Errors of the module *)

(** The kinds of section 7 of the specification, with the two conditions of
    the stateful tier that the ledger reports. *)
Inductive ErrorKind :=
| NilDelegatorAddress
| NilValidatorAddress
| BadValidatorAddress
| BadDelegationAmount
| MinSelfDelegationInvalid
| SelfDelegationBelowMinimum
| BadSharesAmount
| InvalidInput
| ValidatorNotFound
| ValidatorNotEligible.

(** Modelled from the spec: the constructors [ErrNilDelegatorAddr] and the
    like are functions of the module's errors file, which is not among the
    sources.  Each builds the error of its kind in the given codespace;
    [NewError] is the framework's generic constructor, used by the messages
    with [CodeInvalidInput] and a text. *)
Inductive Error :=
| ErrNilDelegatorAddr (cs : CodespaceType)
| ErrNilValidatorAddr (cs : CodespaceType)
| ErrBadValidatorAddr (cs : CodespaceType)
| ErrBadDelegationAmount (cs : CodespaceType)
| ErrBadSharesAmount (cs : CodespaceType)
| ErrMinSelfDelegationInvalid (cs : CodespaceType)
| ErrSelfDelegationBelowMinimum (cs : CodespaceType)
| ErrNoValidatorFound (cs : CodespaceType)
| ErrValidatorNotEligible (cs : CodespaceType)
| NewError (cs : CodespaceType) (code : CodeType) (msg : string).

Definition kindOfCode (c : CodeType) : ErrorKind :=
  match c with
  | CodeInvalidInput => InvalidInput
  end.

Definition kind (e : Error) : ErrorKind :=
  match e with
  | ErrNilDelegatorAddr _ => NilDelegatorAddress
  | ErrNilValidatorAddr _ => NilValidatorAddress
  | ErrBadValidatorAddr _ => BadValidatorAddress
  | ErrBadDelegationAmount _ => BadDelegationAmount
  | ErrBadSharesAmount _ => BadSharesAmount
  | ErrMinSelfDelegationInvalid _ => MinSelfDelegationInvalid
  | ErrSelfDelegationBelowMinimum _ => SelfDelegationBelowMinimum
  | ErrNoValidatorFound _ => ValidatorNotFound
  | ErrValidatorNotEligible _ => ValidatorNotEligible
  | NewError _ c _ => kindOfCode c
  end.

Definition codespace (e : Error) : CodespaceType :=
  match e with
  | ErrNilDelegatorAddr cs | ErrNilValidatorAddr cs | ErrBadValidatorAddr cs
  | ErrBadDelegationAmount cs | ErrBadSharesAmount cs
  | ErrMinSelfDelegationInvalid cs | ErrSelfDelegationBelowMinimum cs
  | ErrNoValidatorFound cs | ErrValidatorNotEligible cs
  | NewError cs _ _ => cs
  end.

(** ** Proposal content *)

(** The [Content] interface: four methods. *)
Class Content (C : Type) := {
  ProposalRoute : C -> string;
  ProposalType : C -> string;
  Content_ValidateBasic : C -> option Error;
  Content_String : C -> string
}.

(** [ValidateAbstract]: the body is the single [return nil]. *)
Definition ValidateAbstract {C : Type} `{Content C}
  (codespace : CodespaceType) (c : C) : option Error :=
  None.

(** ** Messages *)

(** Modelled from the spec: [Description] and [CommissionMsg] are structs of
    the package declared in files that are not among the sources.  A
    description is a comparable struct of text fields (moniker and identity
    are also event tags); its zero value has every text empty. *)
Record Description := mkDescription {
  Moniker : string;
  Identity : string;
  Website : string;
  Details : string
}.

Definition Description_zero : Description :=
  {| Moniker := ""; Identity := ""; Website := ""; Details := "" |}.

#[global] Instance Description_eq_dec : EqDecision Description.
Proof. solve_decision. Defined.

(** The commission terms of a new validator: rate, maximum rate and maximum
    change of the rate.  In Go each is a decimal struct around a pointer,
    [nil] in the zero value [CommissionMsg{}], and [==] on the struct
    compares these pointers: a field is [None] where the pointer is [nil]
    and [Some d] for a constructed decimal, so a commission equals
    [CommissionMsg{}] exactly when the three are [None]. *)
Record CommissionMsg := mkCommissionMsg {
  Rate : option Dec;
  MaxRate : option Dec;
  MaxChangeRate : option Dec
}.

Definition CommissionMsg_zero : CommissionMsg :=
  {| Rate := None; MaxRate := None; MaxChangeRate := None |}.

#[global] Instance CommissionMsg_eq_dec : EqDecision CommissionMsg.
Proof. solve_decision. Defined.

Module crypto.
(** Modelled from the spec: a consensus public key, an interface of the
    consensus library; the message carries the raw key bytes. *)
Definition PubKey := bytes.
End crypto.

Module MsgCreateValidator.

Record t := mk {
  Description : Description;
  Commission : CommissionMsg;
  MinSelfDelegation : Int;
  DelegatorAddress : AccAddress;
  ValidatorAddress : ValAddress;
  PubKey : crypto.PubKey;
  Value : Coin;
  ShareTokenDenom : string
}.

(** The default constructor: the delegator is the validator. *)
Definition NewMsgCreateValidator
  (valAddr : ValAddress) (pubKey : crypto.PubKey) (selfDelegation : Coin)
  (description : _) (commission : CommissionMsg) (minSelfDelegation : Int)
  (shareTokenDenom : string) : t :=
  {| Description := description;
     DelegatorAddress := AccAddress_of_Val valAddr;
     ValidatorAddress := valAddr;
     PubKey := pubKey;
     Value := selfDelegation;
     Commission := commission;
     MinSelfDelegation := minSelfDelegation;
     ShareTokenDenom := shareTokenDenom |}.

Definition Type_ (msg : t) : string := "create_validator".

(** The delegator signs first; the validator is appended when its bytes
    are not the delegator's. *)
Definition GetSigners (msg : t) : list AccAddress :=
  let addrs := [DelegatorAddress msg] in
  if negb (bytes_Equal (Bytes (DelegatorAddress msg)) (Bytes (ValidatorAddress msg)))
  then addrs ++ [AccAddress_of_Val (ValidatorAddress msg)]
  else addrs.

Definition ValidateBasic (msg : t) : option Error :=
  if Empty (DelegatorAddress msg) then
    Some (ErrNilDelegatorAddr DefaultCodespace)
  else if Empty (ValidatorAddress msg) then
    Some (ErrNilValidatorAddr DefaultCodespace)
  else if negb (Equals (AccAddress_of_Val (ValidatorAddress msg)) (DelegatorAddress msg)) then
    Some (ErrBadValidatorAddr DefaultCodespace)
  else if Int_LTE (Amount (Value msg)) ZeroInt then
    Some (ErrBadDelegationAmount DefaultCodespace)
  else if bool_decide (Description msg = Description_zero) then
    Some (NewError DefaultCodespace CodeInvalidInput "description must be included")
  else if bool_decide (Commission msg = CommissionMsg_zero) then
    Some (NewError DefaultCodespace CodeInvalidInput "commission must be included")
  else if bool_decide (ShareTokenDenom msg = "") then
    Some (NewError DefaultCodespace CodeInvalidInput
            "share token denomination must be included.")
  else if negb (Int_GT (MinSelfDelegation msg) ZeroInt) then
    Some (ErrMinSelfDelegationInvalid DefaultCodespace)
  else if Int_LT (Amount (Value msg)) (MinSelfDelegation msg) then
    Some (ErrSelfDelegationBelowMinimum DefaultCodespace)
  else None.

End MsgCreateValidator.

Module MsgEditValidator.

(** The commission rate and the minimum self delegation are passed by
    reference: [None] is the [nil] pointer (no update), [Some] a pointer
    to a constructed value. *)
Record t := mk {
  Description : Description;
  ValidatorAddress : ValAddress;
  CommissionRate : option Dec;
  MinSelfDelegation : option Int
}.

Definition NewMsgEditValidator (valAddr : ValAddress) (description : _)
  (newRate : option Dec) (newMinSelfDelegation : option Int) : t :=
  {| Description := description;
     CommissionRate := newRate;
     ValidatorAddress := valAddr;
     MinSelfDelegation := newMinSelfDelegation |}.

Definition Type_ (msg : t) : string := "edit_validator".

Definition GetSigners (msg : t) : list AccAddress :=
  [AccAddress_of_Val (ValidatorAddress msg)].

Definition ValidateBasic (msg : t) : option Error :=
  if Empty (ValidatorAddress msg) then
    Some (NewError DefaultCodespace CodeInvalidInput "nil validator address")
  else if bool_decide (Description msg = Description_zero) then
    Some (NewError DefaultCodespace CodeInvalidInput
            "transaction must include some information to modify")
  else if match MinSelfDelegation msg with
          | Some m => negb (Int_GT m ZeroInt)
          | None => false
          end then
    Some (ErrMinSelfDelegationInvalid DefaultCodespace)
  else
    match CommissionRate msg with
    | Some r =>
        if Dec_GT r OneDec || Dec_LT r ZeroDec then
          Some (NewError DefaultCodespace CodeInvalidInput
                  "commission rate must be between 0 and 1, inclusive")
        else None
    | None => None
    end.

End MsgEditValidator.

Module MsgDelegate.

Record t := mk {
  DelegatorAddress : AccAddress;
  ValidatorAddress : ValAddress;
  Amount : Coin
}.

Definition NewMsgDelegate (delAddr : AccAddress) (valAddr : ValAddress)
  (amount : Coin) : t :=
  {| DelegatorAddress := delAddr; ValidatorAddress := valAddr; Amount := amount |}.

Definition Type_ (msg : t) : string := "delegate".

Definition GetSigners (msg : t) : list AccAddress := [DelegatorAddress msg].

Definition ValidateBasic (msg : t) : option Error :=
  if Empty (DelegatorAddress msg) then
    Some (ErrNilDelegatorAddr DefaultCodespace)
  else if Empty (ValidatorAddress msg) then
    Some (ErrNilValidatorAddr DefaultCodespace)
  else if Int_LTE (sdk.Amount (Amount msg)) ZeroInt then
    Some (ErrBadDelegationAmount DefaultCodespace)
  else None.

End MsgDelegate.

(** One portion of an indexed delegation. *)
Record ValidatorPortion := mkPortion {
  portionValidator : ValAddress;
  portionAmount : Coin
}.

Module MsgIndexDelegate.

Record t := mk {
  DelegatorAddress : AccAddress;
  Portions : list ValidatorPortion;
  Denomination : string
}.

Definition Type_ (msg : t) : string := "index_delegate".

Definition GetSigners (msg : t) : list AccAddress := [DelegatorAddress msg].

(** The body of the [for ... range msg.Portions] loop together with the
    rest of the iteration: a [return] inside the loop ends the method. *)
Fixpoint checkPortions (portions : list ValidatorPortion) : option Error :=
  match portions with
  | [] => None
  | portion :: rest =>
      if Empty (portionValidator portion) then
        Some (ErrNilValidatorAddr DefaultCodespace)
      else if Int_LTE (sdk.Amount (portionAmount portion)) ZeroInt then
        Some (ErrBadDelegationAmount DefaultCodespace)
      else checkPortions rest
  end.

Definition ValidateBasic (msg : t) : option Error :=
  if Empty (DelegatorAddress msg) then
    Some (ErrNilDelegatorAddr DefaultCodespace)
  else checkPortions (Portions msg).

End MsgIndexDelegate.

Module MsgBeginRedelegate.

Record t := mk {
  DelegatorAddress : AccAddress;
  ValidatorSrcAddress : ValAddress;
  ValidatorDstAddress : ValAddress;
  Amount : Coin
}.

Definition NewMsgBeginRedelegate (delAddr : AccAddress)
  (valSrcAddr valDstAddr : ValAddress) (amount : Coin) : t :=
  {| DelegatorAddress := delAddr;
     ValidatorSrcAddress := valSrcAddr;
     ValidatorDstAddress := valDstAddr;
     Amount := amount |}.

Definition Type_ (msg : t) : string := "begin_redelegate".

Definition GetSigners (msg : t) : list AccAddress := [DelegatorAddress msg].

Definition ValidateBasic (msg : t) : option Error :=
  if Empty (DelegatorAddress msg) then
    Some (ErrNilDelegatorAddr DefaultCodespace)
  else if Empty (ValidatorSrcAddress msg) then
    Some (ErrNilValidatorAddr DefaultCodespace)
  else if Empty (ValidatorDstAddress msg) then
    Some (ErrNilValidatorAddr DefaultCodespace)
  else if Int_LTE (sdk.Amount (Amount msg)) ZeroInt then
    Some (ErrBadSharesAmount DefaultCodespace)
  else None.

End MsgBeginRedelegate.

Module MsgUndelegate.

Record t := mk {
  DelegatorAddress : AccAddress;
  ValidatorAddress : ValAddress;
  Amount : Coin
}.

Definition NewMsgUndelegate (delAddr : AccAddress) (valAddr : ValAddress)
  (amount : Coin) : t :=
  {| DelegatorAddress := delAddr; ValidatorAddress := valAddr; Amount := amount |}.

Definition Type_ (msg : t) : string := "begin_unbonding".

Definition GetSigners (msg : t) : list AccAddress := [DelegatorAddress msg].

Definition ValidateBasic (msg : t) : option Error :=
  if Empty (DelegatorAddress msg) then
    Some (ErrNilDelegatorAddr DefaultCodespace)
  else if Empty (ValidatorAddress msg) then
    Some (ErrNilValidatorAddr DefaultCodespace)
  else if Int_LTE (sdk.Amount (Amount msg)) ZeroInt then
    Some (ErrBadSharesAmount DefaultCodespace)
  else None.

End MsgUndelegate.

(** ** JSON transcoding of MsgCreateValidator *)

(** A Go call either returns or panics. *)
Inductive outcome (A : Type) :=
| Ret (a : A)
| Panic (reason : string).

Arguments Ret {A} a.
Arguments Panic {A} reason.

Definition bind {A B : Type} (m : outcome A) (k : A -> outcome B) : outcome B :=
  match m with
  | Ret a => k a
  | Panic r => Panic r
  end.

Notation "x <- m ;; k" := (bind m (fun x => k))
  (at level 100, m at next level, right associativity).

(** Go's [error] values; [None] is [nil]. *)
Definition error := string.

(** The struct that is put on the wire: the public key travels as text. *)
Record msgCreateValidatorJSON := mkJSON {
  jDescription : Description;
  jCommission : CommissionMsg;
  jMinSelfDelegation : Int;
  jDelegatorAddress : AccAddress;
  jValidatorAddress : ValAddress;
  jPubKey : string;
  jValue : Coin;
  jShareTokenDenom : string
}.

(** The functions of the framework and of [encoding/json] that the two
    methods call; none of them is among the sources, so the methods take
    them as a dictionary.  A function that returns [(T, error)] in Go
    returns a pair here. *)
Record Transcoder := mkTranscoder {
  MustBech32ifyConsPub : crypto.PubKey -> outcome string;
  GetConsPubKeyBech32 : string -> outcome (crypto.PubKey * option error);
  json_Marshal : msgCreateValidatorJSON -> outcome (bytes * option error);
  json_Unmarshal : bytes -> outcome (msgCreateValidatorJSON * option error)
}.

Module CreateValidatorJSON.
Import MsgCreateValidator.

(** The wire struct of a message whose public key has the text [pub]. *)
Definition wireOf (msg : t) (pub : string) : msgCreateValidatorJSON :=
  {| jDescription := Description msg;
     jCommission := Commission msg;
     jMinSelfDelegation := MinSelfDelegation msg;
     jDelegatorAddress := DelegatorAddress msg;
     jValidatorAddress := ValidatorAddress msg;
     jPubKey := pub;
     jValue := Value msg;
     jShareTokenDenom := ShareTokenDenom msg |}.

Definition MarshalJSON (cdc : Transcoder) (msg : t) : outcome (bytes * option error) :=
  pub <- MustBech32ifyConsPub cdc (PubKey msg) ;;
  json_Marshal cdc
    {| jDescription := Description msg;
       jCommission := Commission msg;
       jDelegatorAddress := DelegatorAddress msg;
       jValidatorAddress := ValidatorAddress msg;
       jPubKey := pub;
       jValue := Value msg;
       jMinSelfDelegation := MinSelfDelegation msg;
       jShareTokenDenom := ShareTokenDenom msg |}.

(** The receiver is a pointer: the method returns the receiver as it
    leaves it, also on the error paths.  [json_Unmarshal] stands for
    decoding into the fresh local [msgCreateValJSON].  This is the method
    on the struct an allocated receiver points to; [UnmarshalJSON_ptr]
    below is the method with its pointer, which may be nil. *)
Definition UnmarshalJSON (cdc : Transcoder) (msg : t) (bz : bytes)
  : outcome (t * option error) :=
  r <- json_Unmarshal cdc bz ;;
  match r with
  | (_, Some err) => Ret (msg, Some err)
  | (msgCreateValJSON, None) =>
      let msg1 :=
        {| Description := jDescription msgCreateValJSON;
           Commission := jCommission msgCreateValJSON;
           DelegatorAddress := jDelegatorAddress msgCreateValJSON;
           ValidatorAddress := jValidatorAddress msgCreateValJSON;
           MinSelfDelegation := MinSelfDelegation msg;
           PubKey := PubKey msg;
           Value := Value msg;
           ShareTokenDenom := ShareTokenDenom msg |} in
      r2 <- GetConsPubKeyBech32 cdc (jPubKey msgCreateValJSON) ;;
      let '(pk, err) := r2 in
      let msg2 :=
        {| Description := Description msg1;
           Commission := Commission msg1;
           DelegatorAddress := DelegatorAddress msg1;
           ValidatorAddress := ValidatorAddress msg1;
           MinSelfDelegation := MinSelfDelegation msg1;
           PubKey := pk;
           Value := Value msg1;
           ShareTokenDenom := ShareTokenDenom msg1 |} in
      match err with
      | Some e => Ret (msg2, Some e)
      | None =>
          Ret ({| Description := Description msg2;
                  Commission := Commission msg2;
                  DelegatorAddress := DelegatorAddress msg2;
                  ValidatorAddress := ValidatorAddress msg2;
                  PubKey := PubKey msg2;
                  Value := jValue msgCreateValJSON;
                  MinSelfDelegation := jMinSelfDelegation msgCreateValJSON;
                  ShareTokenDenom := jShareTokenDenom msgCreateValJSON |}, None)
      end
  end.


(** A public key is valid for a transcoder when it has a bech32 text and
    the text decodes back to the key. *)
Definition validPubKey (cdc : Transcoder) (pk : crypto.PubKey) : Prop :=
  exists pub, MustBech32ifyConsPub cdc pk = Ret pub /\
              GetConsPubKeyBech32 cdc pub = Ret (pk, None).

(** The JSON library reads back the wire struct [j] from what it wrote. *)
Definition readsBack (cdc : Transcoder) (j : msgCreateValidatorJSON) : Prop :=
  forall bz, json_Marshal cdc j = Ret (bz, None) ->
             json_Unmarshal cdc bz = Ret (j, None).

End CreateValidatorJSON.

(** ** The staking ledger *)

Module Ledger.

Inductive BondStatus := Unbonded | Unbonding | Bonded.

(** Modelled from the spec: the validator record of section 3, with the
    fields the delegation path reads and writes: the bonded-token total,
    the total of issued shares, the bonding state and whether the
    validator may receive delegations.  The keeper that stores the
    records is not among the sources. *)
Record ValidatorRecord := mkValidator {
  status : BondStatus;
  eligible : bool;
  minSelfDelegation : Int;
  bondedTokens : Int;
  totalShares : Int
}.

(** Modelled from the spec: the persistent state, validator records by
    address and delegation records by (delegator, validator), a record
    holding the shares owned. *)
Record State := mkState {
  validators : gmap ValAddress ValidatorRecord;
  delegations : gmap (AccAddress * ValAddress) Int
}.

(** Modelled from the spec: the shares a delegator owns at a validator;
    an absent delegation record owns none. *)
Definition sharesOf (s : State) (del : AccAddress) (val : ValAddress) : Int :=
  default 0 (delegations s !! (del, val)).

(** Modelled from the spec: shares issued for an amount of tokens are
    [amount / currentExchangeRate], the rate being tokens per share at the
    validator, the division truncating toward zero; a validator that has
    issued no share yet trades at the genesis rate of one share per
    token. *)
Definition sharesFromTokens (v : ValidatorRecord) (amount : Int) : Int :=
  if totalShares v =? 0 then amount
  else Z.quot (amount * totalShares v) (bondedTokens v).

(** Modelled from the spec: the state after a delegation of [amount] to
    the validator record [v] stored at [val] went through: the delegation
    record of the pair is credited with the shares issued, being created
    if absent, and the validator's tokens and shares grow accordingly. *)
Definition credited (s : State) (del : AccAddress) (val : ValAddress)
  (v : ValidatorRecord) (amount : Int) : State :=
  let issued := sharesFromTokens v amount in
  {| validators :=
       <[val := {| status := status v;
                   eligible := eligible v;
                   minSelfDelegation := minSelfDelegation v;
                   bondedTokens := bondedTokens v + amount;
                   totalShares := totalShares v + issued |}]> (validators s);
     delegations :=
       <[(del, val) := sharesOf s del val + issued]> (delegations s) |}.

(** Modelled from the spec: ApplyDelegate (section 4.2) fails if the
    validator is absent or not eligible to receive delegations, computes
    the shares issued, rejects a computed amount that is not positive
    (numeric policy), and otherwise credits the delegation.  A failing call
    writes nothing. *)
Definition ApplyDelegate (s : State) (del : AccAddress) (val : ValAddress)
  (amount : Int) : State * option Error :=
  match validators s !! val with
  | None => (s, Some (ErrNoValidatorFound DefaultCodespace))
  | Some v =>
      if negb (eligible v) then (s, Some (ErrValidatorNotEligible DefaultCodespace))
      else if sharesFromTokens v amount <=? 0 then
        (s, Some (ErrBadDelegationAmount DefaultCodespace))
      else (credited s del val v amount, None)
  end.

(** Modelled from the spec: the loop of independent ApplyDelegate calls
    that section 4.2 contrasts with the indexed delegation; it stops at
    the first failure and the state it returns holds the writes made so
    far. *)
Fixpoint applyPortions (s : State) (del : AccAddress)
  (portions : list ValidatorPortion) : State * option Error :=
  match portions with
  | [] => (s, None)
  | portion :: rest =>
      match ApplyDelegate s del (portionValidator portion)
              (sdk.Amount (portionAmount portion)) with
      | (s', None) => applyPortions s' del rest
      | (s', Some e) => (s', Some e)
      end
  end.

(** Modelled from the spec: ApplyIndexDelegate (section 4.2) applies the
    portions as one logical transaction.  The portions run against a
    branch of the state; the branch is committed when every portion
    succeeded and dropped otherwise (section 5: all writes made so far
    within the transaction are rolled back). *)
Definition ApplyIndexDelegate (s : State) (del : AccAddress)
  (portions : list ValidatorPortion) : State * option Error :=
  let '(branch, err) := applyPortions s del portions in
  match err with
  | None => (branch, None)
  | Some e => (s, Some e)
  end.

(** Every portion applied, in order: each names a validator that exists
    and is eligible in the state it meets, and its delegation succeeded. *)
Inductive AllApplied (del : AccAddress) : State -> list ValidatorPortion -> State -> Prop :=
| AllApplied_nil s : AllApplied del s [] s
| AllApplied_cons s s1 s2 portion rest v :
    validators s !! portionValidator portion = Some v ->
    eligible v = true ->
    ApplyDelegate s del (portionValidator portion)
      (sdk.Amount (portionAmount portion)) = (s1, None) ->
    AllApplied del s1 rest s2 ->
    AllApplied del s (portion :: rest) s2.

End Ledger.

(** ** Predicates and states used in the statements *)

(** The conditions under which a creation passes the stateless check. *)
Definition CreateValidator_wellformed (msg : MsgCreateValidator.t) : Prop :=
  MsgCreateValidator.DelegatorAddress msg <> [] /\
  MsgCreateValidator.ValidatorAddress msg <> [] /\
  MsgCreateValidator.ValidatorAddress msg = MsgCreateValidator.DelegatorAddress msg /\
  0 < Amount (MsgCreateValidator.Value msg) /\
  MsgCreateValidator.Description msg <> Description_zero /\
  MsgCreateValidator.Commission msg <> CommissionMsg_zero /\
  MsgCreateValidator.ShareTokenDenom msg <> "" /\
  0 < MsgCreateValidator.MinSelfDelegation msg /\
  MsgCreateValidator.MinSelfDelegation msg <= Amount (MsgCreateValidator.Value msg).

(** A portion the loop accepts. *)
Definition portionOk (p : ValidatorPortion) : Prop :=
  portionValidator p <> [] /\ 0 < Amount (portionAmount p).


(** The plain delegation that carries one portion of an indexed delegation. *)
Definition delegateOf (del : AccAddress) (p : ValidatorPortion) : MsgDelegate.t :=
  MsgDelegate.mk del (portionValidator p) (portionAmount p).

(** A portion with its coin renamed: same validator, same amount. *)
Definition redenominate (f : string -> string) (p : ValidatorPortion) : ValidatorPortion :=
  {| portionValidator := portionValidator p;
     portionAmount := {| Denom := f (Denom (portionAmount p));
                         Amount := Amount (portionAmount p) |} |}.

(** A creation with its public key replaced. *)
Definition withPubKey (msg : MsgCreateValidator.t) (pk : crypto.PubKey)
  : MsgCreateValidator.t :=
  {| MsgCreateValidator.Description := MsgCreateValidator.Description msg;
     MsgCreateValidator.Commission := MsgCreateValidator.Commission msg;
     MsgCreateValidator.MinSelfDelegation := MsgCreateValidator.MinSelfDelegation msg;
     MsgCreateValidator.DelegatorAddress := MsgCreateValidator.DelegatorAddress msg;
     MsgCreateValidator.ValidatorAddress := MsgCreateValidator.ValidatorAddress msg;
     MsgCreateValidator.PubKey := pk;
     MsgCreateValidator.Value := MsgCreateValidator.Value msg;
     MsgCreateValidator.ShareTokenDenom := MsgCreateValidator.ShareTokenDenom msg |}.

(** ** The library behind the transcoding, modelled *)

(** Modelled from the spec: the library functions behind [Transcoder]
    (the framework's bech32 functions for consensus public keys and the
    JSON encoder and decoder), none of which is among the sources.  The
    wire form is a JSON object with stable field order whose leaves are
    texts or null: integers and decimals travel as decimal texts,
    addresses as hexadecimal texts, and the public key as a bech32-style
    text (section 4.1), a human-readable prefix, the separator and the key
    bytes as text.  Decoding returns an error on input it cannot read. *)
Module Wire.

Inductive jvalue :=
| JNull
| JString (s : string)
| JObject (members : list (string * jvalue)).

Definition dquote : ascii := ascii_of_nat 34.
Definition backslash : ascii := ascii_of_nat 92.

(** A quote or a backslash inside a text is written after a backslash. *)
Fixpoint escape (s : string) : list ascii :=
  match s with
  | EmptyString => []
  | String c rest =>
      if Ascii.eqb c dquote || Ascii.eqb c backslash
      then backslash :: c :: escape rest
      else c :: escape rest
  end.

Definition quoted (s : string) : list ascii := dquote :: escape s ++ [dquote].

Fixpoint print (v : jvalue) : list ascii :=
  match v with
  | JNull => ["n"; "u"; "l"; "l"]%char
  | JString s => quoted s
  | JObject members =>
      let fix printMembers (ms : list (string * jvalue)) : list ascii :=
        match ms with
        | [] => []
        | (k, v) :: rest =>
            quoted k ++ ":"%char :: print v ++
            match rest with
            | [] => []
            | _ :: _ => ","%char :: printMembers rest
            end
        end in
      "{"%char :: printMembers members ++ ["}"%char]
  end.

(** The members of an object, as [print] writes them between the braces. *)
Fixpoint printMembers (ms : list (string * jvalue)) : list ascii :=
  match ms with
  | [] => []
  | (k, v) :: rest =>
      quoted k ++ ":"%char :: print v ++
      match rest with
      | [] => []
      | _ :: _ => ","%char :: printMembers rest
      end
  end.

(** Reads a text up to its closing quote, undoing [escape]; the opening
    quote is consumed by the caller. *)
Fixpoint readString (cs : list ascii) : option (string * list ascii) :=
  match cs with
  | [] => None
  | c :: rest =>
      if Ascii.eqb c dquote then Some (EmptyString, rest)
      else if Ascii.eqb c backslash then
        match rest with
        | e :: rest' =>
            match readString rest' with
            | Some (s, rest'') => Some (String e s, rest'')
            | None => None
            end
        | [] => None
        end
      else match readString rest with
           | Some (s, rest') => Some (String c s, rest')
           | None => None
           end
  end.

Fixpoint parseValue (fuel : nat) (cs : list ascii) : option (jvalue * list ascii) :=
  match fuel with
  | O => None
  | S fuel' =>
      match cs with
      | "n" :: "u" :: "l" :: "l" :: rest => Some (JNull, rest)
      | "{" :: "}" :: rest => Some (JObject [], rest)
      | "{" :: rest =>
          match parseMembers fuel' rest with
          | Some (ms, rest') => Some (JObject ms, rest')
          | None => None
          end
      | c :: rest =>
          if Ascii.eqb c dquote then
            match readString rest with
            | Some (s, rest') => Some (JString s, rest')
            | None => None
            end
          else None
      | [] => None
      end%char
  end
with parseMembers (fuel : nat) (cs : list ascii)
  : option (list (string * jvalue) * list ascii) :=
  match fuel with
  | O => None
  | S fuel' =>
      match cs with
      | c :: rest =>
          if Ascii.eqb c dquote then
            match readString rest with
            | Some (k, ":" :: rest1) =>
                match parseValue fuel' rest1 with
                | Some (v, "," :: rest2) =>
                    match parseMembers fuel' rest2 with
                    | Some (ms, rest3) => Some ((k, v) :: ms, rest3)
                    | None => None
                    end
                | Some (v, "}" :: rest2) => Some ([(k, v)], rest2)
                | _ => None
                end
            | _ => None
            end%char
          else None
      | [] => None
      end
  end.

Definition parse (cs : list ascii) : option jvalue :=
  match parseValue (S (length cs)) cs with
  | Some (v, []) => Some v
  | _ => None
  end.

(** *** Leaves *)

Definition hexDigit (n : N) : ascii :=
  ascii_of_N (if (n <? 10)%N then 48 + n else 87 + n).

Definition nibble (c : ascii) : option N :=
  let n := N_of_ascii c in
  if ((48 <=? n) && (n <=? 57))%N then Some (n - 48)%N
  else if ((97 <=? n) && (n <=? 102))%N then Some (n - 87)%N
  else None.

Fixpoint hexOfBytes (bs : bytes) : string :=
  match bs with
  | [] => EmptyString
  | b :: rest =>
      let n := Byte.to_N b in
      String (hexDigit (n / 16)) (String (hexDigit (n mod 16)) (hexOfBytes rest))
  end.

Fixpoint bytesOfHex (s : string) : option bytes :=
  match s with
  | EmptyString => Some []
  | String hi (String lo rest) =>
      match nibble hi, nibble lo, bytesOfHex rest with
      | Some h, Some l, Some bs =>
          match Byte.of_N (16 * h + l) with
          | Some b => Some (b :: bs)
          | None => None
          end
      | _, _, _ => None
      end
  | String _ EmptyString => None
  end.

Definition textOfInt (i : Int) : string :=
  DecimalString.NilZero.string_of_int (Z.to_int i).

Definition intOfText (s : string) : option Int :=
  option_map Z.of_int (DecimalString.NilZero.int_of_string s).

Definition field (k : string) (v : jvalue) : option jvalue :=
  match v with
  | JObject ms => snd <$> find (fun kv => bool_decide (fst kv = k)) ms
  | _ => None
  end.

Definition asText (v : jvalue) : option string :=
  match v with JString s => Some s | _ => None end.

Definition asInt (v : jvalue) : option Int := asText v ≫= intOfText.

Definition asBytes (v : jvalue) : option bytes := asText v ≫= bytesOfHex.

(** A decimal that was never set travels as null. *)
Definition ofDec (d : option Dec) : jvalue :=
  match d with
  | None => JNull
  | Some i => JString (textOfInt i)
  end.

Definition asDec (v : jvalue) : option (option Dec) :=
  match v with
  | JNull => Some None
  | JString s => Some <$> intOfText s
  | JObject _ => None
  end.

(** *** The wire struct *)

Definition ofDescription (d : Description) : jvalue :=
  JObject [("moniker", JString (Moniker d)); ("identity", JString (Identity d));
           ("website", JString (Website d)); ("details", JString (Details d))].

Definition asDescription (v : jvalue) : option Description :=
  m ← field "moniker" v ≫= asText;
  i ← field "identity" v ≫= asText;
  w ← field "website" v ≫= asText;
  d ← field "details" v ≫= asText;
  Some {| Moniker := m; Identity := i; Website := w; Details := d |}.

Definition ofCommission (c : CommissionMsg) : jvalue :=
  JObject [("rate", ofDec (Rate c)); ("max_rate", ofDec (MaxRate c));
           ("max_change_rate", ofDec (MaxChangeRate c))].

Definition asCommission (v : jvalue) : option CommissionMsg :=
  r ← field "rate" v ≫= asDec;
  m ← field "max_rate" v ≫= asDec;
  c ← field "max_change_rate" v ≫= asDec;
  Some {| Rate := r; MaxRate := m; MaxChangeRate := c |}.

Definition ofCoin (c : Coin) : jvalue :=
  JObject [("denom", JString (Denom c)); ("amount", JString (textOfInt (Amount c)))].

Definition asCoin (v : jvalue) : option Coin :=
  d ← field "denom" v ≫= asText;
  a ← field "amount" v ≫= asInt;
  Some {| Denom := d; Amount := a |}.

Definition ofWire (j : msgCreateValidatorJSON) : jvalue :=
  JObject [("description", ofDescription (jDescription j));
           ("commission", ofCommission (jCommission j));
           ("min_self_delegation", JString (textOfInt (jMinSelfDelegation j)));
           ("delegator_address", JString (hexOfBytes (jDelegatorAddress j)));
           ("validator_address", JString (hexOfBytes (jValidatorAddress j)));
           ("pubkey", JString (jPubKey j));
           ("value", ofCoin (jValue j));
           ("share_token_denom", JString (jShareTokenDenom j))].

Definition asWire (v : jvalue) : option msgCreateValidatorJSON :=
  d ← field "description" v ≫= asDescription;
  c ← field "commission" v ≫= asCommission;
  m ← field "min_self_delegation" v ≫= asInt;
  da ← field "delegator_address" v ≫= asBytes;
  va ← field "validator_address" v ≫= asBytes;
  pk ← field "pubkey" v ≫= asText;
  val ← field "value" v ≫= asCoin;
  st ← field "share_token_denom" v ≫= asText;
  Some {| jDescription := d; jCommission := c; jMinSelfDelegation := m;
          jDelegatorAddress := da; jValidatorAddress := va; jPubKey := pk;
          jValue := val; jShareTokenDenom := st |}.

(** The struct a failed decoding leaves behind. *)
Definition blank : msgCreateValidatorJSON :=
  {| jDescription := Description_zero; jCommission := CommissionMsg_zero;
     jMinSelfDelegation := 0; jDelegatorAddress := []; jValidatorAddress := [];
     jPubKey := EmptyString; jValue := {| Denom := EmptyString; Amount := 0 |};
     jShareTokenDenom := EmptyString |}.

(** Modelled from the spec: the JSON encoder on the wire struct. *)
Definition marshal (j : msgCreateValidatorJSON) : outcome (bytes * option error) :=
  Ret (map byte_of_ascii (print (ofWire j)), None).

(** Modelled from the spec: the JSON decoder into a fresh wire struct;
    input that is not the JSON of a wire struct is an error. *)
Definition unmarshal (bz : bytes) : outcome (msgCreateValidatorJSON * option error) :=
  match parse (map ascii_of_byte bz) ≫= asWire with
  | Some j => Ret (j, None)
  | None => Ret (blank, Some "invalid character in JSON input")
  end.

(** *** The public key as text *)


(** The human-readable part and the separator. *)
Definition consPubPrefix : string := "cosmosvalconspub1".

(** Modelled from the spec: the encoder that must succeed.  A key with no
    bytes has no text form. *)
Definition mustBech32ify (pk : crypto.PubKey) : outcome string :=
  match pk with
  | [] => Panic "empty public key"
  | _ => Ret (consPubPrefix +:+ hexOfBytes pk)
  end.

Fixpoint stripPrefix (p s : string) : option string :=
  match p, s with
  | EmptyString, _ => Some s
  | String a p', String b s' => if Ascii.eqb a b then stripPrefix p' s' else None
  | String _ _, EmptyString => None
  end.

(** Modelled from the spec: the decoder.  A text without the prefix, with
    data that are not pairs of hexadecimal digits, or with no data, is a
    decoding error. *)
Definition getConsPubKey (s : string) : outcome (crypto.PubKey * option error) :=
  match stripPrefix consPubPrefix s ≫= bytesOfHex with
  | Some (b :: bs) => Ret (b :: bs, None)
  | _ => Ret ([], Some "decoding bech32 failed")
  end.

Definition transcoder : Transcoder :=
  {| MustBech32ifyConsPub := mustBech32ify;
     GetConsPubKeyBech32 := getConsPubKey;
     json_Marshal := marshal;
     json_Unmarshal := unmarshal |}.

End Wire.

(** ** Sample values *)

Module Samples.

Definition addrA : bytes := ["a"; "l"; "i"; "c"; "e"]%byte.
Definition addrB : bytes := ["b"; "o"; "b"]%byte.
Definition addrC : bytes := ["c"; "a"; "r"; "o"; "l"]%byte.

Definition stake (n : Z) : Coin := {| Denom := "stake"; Amount := n |}.

Definition someDescription : Description :=
  {| Moniker := "node0"; Identity := ""; Website := ""; Details := "" |}.

(** Rate 10%, maximum rate 20%, maximum change 1%. *)
Definition someCommission : CommissionMsg :=
  {| Rate := Some (NewDecWithPrec 1 1);
     MaxRate := Some (NewDecWithPrec 2 1);
     MaxChangeRate := Some (NewDecWithPrec 1 2) |}.

Definition someKey : crypto.PubKey := [x01; x02; xfe; xff]%byte.

(** An edit that only sets the commission rate, to 50%. *)
Definition editRateOnly : MsgEditValidator.t :=
  MsgEditValidator.NewMsgEditValidator addrA Description_zero
    (Some (NewDecWithPrec 5 1)) None.

(** An edit that renames the validator and sets the rate to 50%. *)
Definition editMonikerAndRate : MsgEditValidator.t :=
  MsgEditValidator.NewMsgEditValidator addrA someDescription
    (Some (NewDecWithPrec 5 1)) None.

(** A creation with value 100 and the given minimum self delegation. *)
Definition createWithMin (minSelf : Z) : MsgCreateValidator.t :=
  MsgCreateValidator.NewMsgCreateValidator addrA someKey (stake 100)
    someDescription someCommission minSelf "share".

Definition portion (val : ValAddress) (n : Z) : ValidatorPortion :=
  {| portionValidator := val; portionAmount := stake n |}.


(** The wire form of [createWithMin 50], as the concrete transcoder writes
    it. *)
Definition createWire : bytes :=
  match CreateValidatorJSON.MarshalJSON Wire.transcoder (createWithMin 50) with
  | Ret (bz, _) => bz
  | Panic _ => []
  end.


(** Two good portions, and the same two the other way round. *)
Definition twoPortions : list ValidatorPortion := [portion addrB 10; portion addrC 5].
Definition twoPortionsSwapped : list ValidatorPortion := [portion addrC 5; portion addrB 10].

(** A bonded validator that accepts delegations and trades one share per
    token: 100 tokens against 100 shares. *)
Definition openValidator : Ledger.ValidatorRecord :=
  {| Ledger.status := Ledger.Bonded;
     Ledger.eligible := true;
     Ledger.minSelfDelegation := 50;
     Ledger.bondedTokens := 100;
     Ledger.totalShares := 100 |}.

(** Two validators, at [addrB] and [addrC], each holding its own
    delegation of 100 shares. *)
Definition twoValidators : Ledger.State :=
  {| Ledger.validators := <[addrB := openValidator]> (<[addrC := openValidator]> ∅);
     Ledger.delegations := <[(addrB, addrB) := 100]> (<[(addrC, addrC) := 100]> ∅) |}.

(** Ten tokens to [addrB], then an invalid portion to [addrC]. *)
Definition tenThenMinusFive : list ValidatorPortion :=
  [portion addrB 10; portion addrC (-5)].

End Samples.

(** * Properties *)

(** ** Addresses and comparisons *)

Lemma bytes_Equal_true (a b : bytes) : bytes_Equal a b = true <-> a = b.
Proof. unfold bytes_Equal. apply bool_decide_eq_true. Qed.

Lemma bytes_Equal_false (a b : bytes) : bytes_Equal a b = false <-> a <> b.
Proof. unfold bytes_Equal. apply bool_decide_eq_false. Qed.

Lemma Empty_true (a : bytes) : Empty a = true <-> a = [].
Proof. unfold Empty, Bytes. apply bytes_Equal_true. Qed.

Lemma Empty_false (a : bytes) : Empty a = false <-> a <> [].
Proof. unfold Empty, Bytes. apply bytes_Equal_false. Qed.

Lemma Equals_true (a b : bytes) : Equals a b = true <-> a = b.
Proof.
  unfold Equals, Bytes.
  destruct (Empty a) eqn:Ha, (Empty b) eqn:Hb; cbn.
  - apply Empty_true in Ha, Hb. subst. tauto.
  - apply bytes_Equal_true.
  - apply bytes_Equal_true.
  - apply bytes_Equal_true.
Qed.

Lemma Equals_false (a b : bytes) : Equals a b = false <-> a <> b.
Proof.
  rewrite <- Equals_true. destruct (Equals a b); split; congruence.
Qed.

Lemma Int_LTE_spec (i j : Int) : Int_LTE i j = true <-> i <= j.
Proof. unfold Int_LTE. apply Z.leb_le. Qed.

Lemma Int_LTE_false (i j : Int) : Int_LTE i j = false <-> j < i.
Proof. unfold Int_LTE. apply Z.leb_gt. Qed.

Lemma Int_LT_spec (i j : Int) : Int_LT i j = true <-> i < j.
Proof. unfold Int_LT. apply Z.ltb_lt. Qed.

Lemma Int_LT_false (i j : Int) : Int_LT i j = false <-> j <= i.
Proof. unfold Int_LT. apply Z.ltb_ge. Qed.

Lemma Int_GT_spec (i j : Int) : Int_GT i j = true <-> j < i.
Proof. unfold Int_GT. rewrite Z.gtb_ltb. apply Z.ltb_lt. Qed.

Lemma Int_GT_false (i j : Int) : Int_GT i j = false <-> i <= j.
Proof. unfold Int_GT. rewrite Z.gtb_ltb. apply Z.ltb_ge. Qed.

Lemma Dec_GT_false (d e : Dec) : Dec_GT d e = false <-> d <= e.
Proof. apply Int_GT_false. Qed.

Lemma Dec_LT_false (d e : Dec) : Dec_LT d e = false <-> e <= d.
Proof. apply Int_LT_false. Qed.

(** Turns the boolean guards found in the context into propositions. *)
Ltac guards :=
  repeat match goal with
  | H : Empty _ = true |- _ => apply Empty_true in H
  | H : Empty _ = false |- _ => apply Empty_false in H
  | H : Equals _ _ = true |- _ => apply Equals_true in H
  | H : Equals _ _ = false |- _ => apply Equals_false in H
  | H : negb _ = true |- _ => apply negb_true_iff in H
  | H : negb _ = false |- _ => apply negb_false_iff in H
  | H : Int_LTE _ _ = true |- _ => apply Int_LTE_spec in H
  | H : Int_LTE _ _ = false |- _ => apply Int_LTE_false in H
  | H : Int_LT _ _ = true |- _ => apply Int_LT_spec in H
  | H : Int_LT _ _ = false |- _ => apply Int_LT_false in H
  | H : Int_GT _ _ = true |- _ => apply Int_GT_spec in H
  | H : Int_GT _ _ = false |- _ => apply Int_GT_false in H
  | H : bool_decide _ = true |- _ => apply bool_decide_eq_true in H
  | H : bool_decide _ = false |- _ => apply bool_decide_eq_false in H
  | H : orb _ _ = false |- _ => apply orb_false_iff in H; destruct H
  | H : orb _ _ = true |- _ => apply orb_true_iff in H
  | H : Dec_GT _ _ = false |- _ => apply Dec_GT_false in H
  | H : Dec_GT _ _ = true |- _ => apply Int_GT_spec in H
  | H : Dec_LT _ _ = true |- _ => apply Int_LT_spec in H
  | H : Dec_LT _ _ = false |- _ => apply Dec_LT_false in H
  end.

(** ** MsgEditValidator *)

(** C1, as amended.  [MsgEditValidator.ValidateBasic] returns success exactly
    when the validator address is non-empty, the description is not the
    default one, the minimum self delegation, if present, is positive, and
    the commission rate, if present, lies in [0, 1].  A present rate or
    minimum self delegation does not stand in for a description. *)
Theorem C1_EditValidator_accepts_iff (msg : MsgEditValidator.t) :
  MsgEditValidator.ValidateBasic msg = None <->
    Empty (MsgEditValidator.ValidatorAddress msg) = false /\
    MsgEditValidator.Description msg <> Description_zero /\
    (forall m, MsgEditValidator.MinSelfDelegation msg = Some m -> 0 < m) /\
    (forall r, MsgEditValidator.CommissionRate msg = Some r ->
               ZeroDec <= r <= OneDec).
Proof.
  rewrite Empty_false.
  unfold MsgEditValidator.ValidateBasic, ZeroInt.
  destruct msg as [d va cr msd]; cbn.
  destruct (Empty va) eqn:Hva; guards; [split; [discriminate | tauto] |].
  destruct (bool_decide (d = Description_zero)) eqn:Hd; guards;
    [split; [discriminate | tauto] |].
  destruct msd as [m|], cr as [r|];
    repeat match goal with
    | |- context [if ?b then _ else _] => destruct b eqn:?
    end; guards;
    (split; [try discriminate; intros _ | try reflexivity; intros (_ & _ & Hm & Hr)]);
    try (split_and!; try assumption; intros ? [= <-] || discriminate; lia);
    try (specialize (Hm _ eq_refl)); try (specialize (Hr _ eq_refl)); try lia;
    match goal with H : _ \/ _ |- _ => destruct H end; guards; lia.
Qed.

(** An edit with a moniker and a rate of one half passes. *)
Lemma C1_EditValidator_accepts_iff_witness :
  MsgEditValidator.ValidateBasic Samples.editMonikerAndRate = None.
Proof.
  apply (C1_EditValidator_accepts_iff Samples.editMonikerAndRate).
  split_and!.
  - reflexivity.
  - discriminate.
  - discriminate.
  - intros r [= <-]. vm_compute. split; discriminate.
Defined.

(** C1, as stated, fails: a message with a non-empty validator address, the
    default description and a commission rate of one half, which is in
    [0, 1], is rejected with an invalid-input error. *)
Lemma C1_rate_only_edit_rejected :
  Empty (MsgEditValidator.ValidatorAddress Samples.editRateOnly) = false /\
  MsgEditValidator.Description Samples.editRateOnly = Description_zero /\
  (exists r, MsgEditValidator.CommissionRate Samples.editRateOnly = Some r /\
             ZeroDec <= r <= OneDec) /\
  MsgEditValidator.ValidateBasic Samples.editRateOnly =
    Some (NewError DefaultCodespace CodeInvalidInput
            "transaction must include some information to modify") /\
  MsgEditValidator.ValidateBasic Samples.editMonikerAndRate = None.
Proof.
  split_and!; try reflexivity.
  eexists. split; [reflexivity |]. vm_compute. split; discriminate.
Qed.

(** ** MsgCreateValidator *)

(** C3.  [MsgCreateValidator.ValidateBasic] returns success if and only if
    the delegator and validator addresses are non-empty, the validator
    address equals the delegator address, the value is positive, the
    description and the commission are not the default ones, the share
    token denomination is non-empty, the minimum self delegation is
    positive and the value is at least the minimum self delegation.  A
    message that meets every condition but the last, with value 100 and
    minimum self delegation 150, fails with SelfDelegationBelowMinimum, and
    no message with these two amounts passes. *)
Theorem C3_CreateValidator_ValidateBasic_iff :
  (forall msg,
     MsgCreateValidator.ValidateBasic msg = None <-> CreateValidator_wellformed msg) /\
  (forall msg,
     Amount (MsgCreateValidator.Value msg) = 100 ->
     MsgCreateValidator.MinSelfDelegation msg = 150 ->
     MsgCreateValidator.ValidateBasic msg <> None /\
     (MsgCreateValidator.DelegatorAddress msg <> [] ->
      MsgCreateValidator.ValidatorAddress msg = MsgCreateValidator.DelegatorAddress msg ->
      MsgCreateValidator.Description msg <> Description_zero ->
      MsgCreateValidator.Commission msg <> CommissionMsg_zero ->
      MsgCreateValidator.ShareTokenDenom msg <> "" ->
      MsgCreateValidator.ValidateBasic msg =
        Some (ErrSelfDelegationBelowMinimum DefaultCodespace))) /\
  MsgCreateValidator.ValidateBasic (Samples.createWithMin 150) =
    Some (ErrSelfDelegationBelowMinimum DefaultCodespace) /\
  MsgCreateValidator.ValidateBasic (Samples.createWithMin 50) = None.
Proof.
  assert (Hiff : forall msg,
    MsgCreateValidator.ValidateBasic msg = None <-> CreateValidator_wellformed msg).
  { intros [d c m da va pk [dn v] st].
    unfold CreateValidator_wellformed, MsgCreateValidator.ValidateBasic,
      AccAddress_of_Val, ZeroInt; cbn.
    repeat match goal with
    | |- context [if ?b then _ else _] => destruct b eqn:?; guards
    end;
    (split; [try discriminate; intros _ | try reflexivity; intros Hwf]);
    try (split_and!; (assumption || congruence || lia));
    destruct Hwf as (? & ? & ? & ? & ? & ? & ? & ? & ?);
    first [contradiction | congruence | lia]. }
  split_and!; try reflexivity; [exact Hiff |].
  intros msg Hv Hm. split.
  - intros Hnone. apply Hiff in Hnone.
    destruct Hnone as (_ & _ & _ & _ & _ & _ & _ & _ & Hle). lia.
  - intros Hd Heq Hdesc Hcom Hden.
    destruct msg as [d c m da va pk [dn v] st]; cbn in *; subst.
    unfold MsgCreateValidator.ValidateBasic, AccAddress_of_Val, ZeroInt; cbn.
    apply Empty_false in Hd. rewrite Hd.
    assert (He : Equals da da = true) by (apply Equals_true; reflexivity).
    rewrite He; cbn.
    rewrite !bool_decide_eq_false_2 by assumption.
    reflexivity.
Qed.

(** Value 100 against a minimum self delegation of 150, on a message that
    is otherwise in order. *)
Lemma C3_CreateValidator_ValidateBasic_iff_witness :
  MsgCreateValidator.ValidateBasic (Samples.createWithMin 150) =
    Some (ErrSelfDelegationBelowMinimum DefaultCodespace).
Proof.
  destruct C3_CreateValidator_ValidateBasic_iff as (_ & Hbelow & _).
  apply (Hbelow (Samples.createWithMin 150)); (reflexivity || discriminate).
Defined.

(** [GetSigners] of a creation, by cases on the two addresses. *)
Lemma CreateValidator_GetSigners_cases (msg : MsgCreateValidator.t) :
  let del := MsgCreateValidator.DelegatorAddress msg in
  let val := MsgCreateValidator.ValidatorAddress msg in
  (val = del /\ MsgCreateValidator.GetSigners msg = [del]) \/
  (val <> del /\ MsgCreateValidator.GetSigners msg = [del; AccAddress_of_Val val]).
Proof.
  cbn. unfold MsgCreateValidator.GetSigners, Bytes.
  destruct (bytes_Equal _ _) eqn:E; cbn.
  - apply bytes_Equal_true in E. left. split; congruence.
  - apply bytes_Equal_false in E. right. split; congruence.
Qed.

(** C6.  [MsgCreateValidator.GetSigners] returns the delegator address
    first, followed by the validator address (as an account address) if and
    only if its bytes differ from the delegator's: one signer when the two
    are equal, two otherwise, and never the same address twice. *)
Theorem C6_CreateValidator_GetSigners (msg : MsgCreateValidator.t) :
  let del := MsgCreateValidator.DelegatorAddress msg in
  let val := MsgCreateValidator.ValidatorAddress msg in
  let signers := MsgCreateValidator.GetSigners msg in
  head signers = Some del /\
  (signers = [del; AccAddress_of_Val val] <-> Bytes val <> Bytes del) /\
  (signers = [del] <-> Bytes val = Bytes del) /\
  (length signers = 1%nat <-> Bytes val = Bytes del) /\
  (length signers = 2%nat <-> Bytes val <> Bytes del) /\
  NoDup signers.
Proof.
  cbn. unfold Bytes.
  destruct (CreateValidator_GetSigners_cases msg) as [[He ->] | [Hne ->]];
    cbn; unfold AccAddress_of_Val.
  - split_and!; try (split; intros; congruence || lia || reflexivity || done).
    apply NoDup_singleton.
  - split_and!; try (split; intros; congruence || lia || reflexivity || done).
    apply NoDup_cons. split; [| apply NoDup_singleton].
    rewrite list_elem_of_singleton. congruence.
Qed.

(** ** Proposal content *)

(** C7.  [ValidateAbstract] returns nil for every codespace and every
    content: it validates nothing, whatever the content's text. *)
Theorem C7_ValidateAbstract_nil (C : Type) (ops : Content C)
  (cs : CodespaceType) (c : C) :
  ValidateAbstract cs c = None.
Proof. reflexivity. Qed.

(** ** MsgIndexDelegate *)

Lemma checkPortions_skip_good (good rest : list ValidatorPortion) :
  Forall portionOk good ->
  MsgIndexDelegate.checkPortions (good ++ rest) = MsgIndexDelegate.checkPortions rest.
Proof.
  induction 1 as [| p good [Hv Ha] _ IH]; [reflexivity |].
  cbn. apply Empty_false in Hv. rewrite Hv.
  unfold ZeroInt. apply Int_LTE_false in Ha. rewrite Ha. exact IH.
Qed.

(** C4.  [MsgIndexDelegate.ValidateBasic] first rejects an empty delegator
    address, then walks the portions in order: the first portion that fails
    decides the result, NilValidatorAddr for an empty validator address and
    BadDelegationAmount for a non-positive amount, whatever the portions
    after it; with no failing portion the message passes. *)
Theorem C4_IndexDelegate_ValidateBasic_short_circuit :
  (forall ps denom,
     MsgIndexDelegate.ValidateBasic (MsgIndexDelegate.mk [] ps denom) =
       Some (ErrNilDelegatorAddr DefaultCodespace)) /\
  (forall del good p rest denom,
     del <> [] -> Forall portionOk good ->
     portionValidator p = [] ->
     MsgIndexDelegate.ValidateBasic (MsgIndexDelegate.mk del (good ++ p :: rest) denom) =
       Some (ErrNilValidatorAddr DefaultCodespace)) /\
  (forall del good p rest denom,
     del <> [] -> Forall portionOk good ->
     portionValidator p <> [] -> Amount (portionAmount p) <= 0 ->
     MsgIndexDelegate.ValidateBasic (MsgIndexDelegate.mk del (good ++ p :: rest) denom) =
       Some (ErrBadDelegationAmount DefaultCodespace)) /\
  (forall del good denom,
     del <> [] -> Forall portionOk good ->
     MsgIndexDelegate.ValidateBasic (MsgIndexDelegate.mk del good denom) = None).
Proof.
  unfold MsgIndexDelegate.ValidateBasic; cbn.
  split_and!.
  - reflexivity.
  - intros del good p rest denom Hdel Hgood Hp.
    apply Empty_false in Hdel. rewrite Hdel, checkPortions_skip_good by assumption.
    cbn. apply Empty_true in Hp. rewrite Hp. reflexivity.
  - intros del good p rest denom Hdel Hgood Hp Ha.
    apply Empty_false in Hdel. rewrite Hdel, checkPortions_skip_good by assumption.
    cbn. apply Empty_false in Hp. rewrite Hp.
    apply Int_LTE_spec in Ha. unfold ZeroInt. rewrite Ha. reflexivity.
  - intros del good denom Hdel Hgood.
    apply Empty_false in Hdel. rewrite Hdel.
    rewrite <- (app_nil_r good), checkPortions_skip_good by assumption.
    reflexivity.
Qed.

(** Three portions, the second with a negative amount, the third with no
    validator address: the second decides. *)
Lemma C4_IndexDelegate_ValidateBasic_short_circuit_witness :
  MsgIndexDelegate.ValidateBasic
    (MsgIndexDelegate.mk Samples.addrA
       ([Samples.portion Samples.addrB 10] ++
        Samples.portion Samples.addrC (-5) :: [Samples.portion [] 0])
       "stake") =
    Some (ErrBadDelegationAmount DefaultCodespace).
Proof.
  destruct C4_IndexDelegate_ValidateBasic_short_circuit as (_ & _ & Hamount & _).
  apply Hamount.
  - discriminate.
  - repeat constructor; vm_compute; (discriminate || reflexivity).
  - discriminate.
  - vm_compute. discriminate.
Defined.

(** C8.  [MsgIndexDelegate.ValidateBasic] asks for no minimum number of
    portions: a message with a non-empty delegator address and no portion
    passes. *)
Theorem C8_IndexDelegate_no_portions_ok (msg : MsgIndexDelegate.t) :
  Empty (MsgIndexDelegate.DelegatorAddress msg) = false ->
  MsgIndexDelegate.Portions msg = [] ->
  MsgIndexDelegate.ValidateBasic msg = None.
Proof.
  intros Hdel Hps. unfold MsgIndexDelegate.ValidateBasic.
  rewrite Hdel, Hps. reflexivity.
Qed.

(** A delegator and no portion. *)
Lemma C8_IndexDelegate_no_portions_ok_witness :
  MsgIndexDelegate.ValidateBasic (MsgIndexDelegate.mk Samples.addrA [] "stake") = None.
Proof.
  apply (C8_IndexDelegate_no_portions_ok
           (MsgIndexDelegate.mk Samples.addrA [] "stake")); reflexivity.
Defined.

(** ** Error kinds for amounts that are not positive *)

(** C9.  For an amount that is zero or negative, with the addresses given,
    [MsgUndelegate.ValidateBasic] and [MsgBeginRedelegate.ValidateBasic]
    return BadSharesAmount, while [MsgDelegate.ValidateBasic] and
    [MsgIndexDelegate.ValidateBasic] (at the first failing portion) return
    BadDelegationAmount: two different kinds for the same condition. *)
Theorem C9_nonpositive_amount_error_kinds
  (del val src dst : bytes) (amount : Coin)
  (good rest : list ValidatorPortion) (denom : string) :
  del <> [] -> val <> [] -> src <> [] -> dst <> [] ->
  Forall portionOk good ->
  Amount amount <= 0 ->
  MsgUndelegate.ValidateBasic (MsgUndelegate.mk del val amount) =
    Some (ErrBadSharesAmount DefaultCodespace) /\
  MsgBeginRedelegate.ValidateBasic (MsgBeginRedelegate.mk del src dst amount) =
    Some (ErrBadSharesAmount DefaultCodespace) /\
  MsgDelegate.ValidateBasic (MsgDelegate.mk del val amount) =
    Some (ErrBadDelegationAmount DefaultCodespace) /\
  MsgIndexDelegate.ValidateBasic
    (MsgIndexDelegate.mk del (good ++ mkPortion val amount :: rest) denom) =
    Some (ErrBadDelegationAmount DefaultCodespace) /\
  kind (ErrBadSharesAmount DefaultCodespace) = BadSharesAmount /\
  kind (ErrBadDelegationAmount DefaultCodespace) = BadDelegationAmount /\
  BadSharesAmount <> BadDelegationAmount.
Proof.
  intros Hdel Hval Hsrc Hdst Hgood Ha.
  apply Empty_false in Hdel, Hval, Hsrc, Hdst. apply Int_LTE_spec in Ha.
  unfold MsgUndelegate.ValidateBasic, MsgBeginRedelegate.ValidateBasic,
    MsgDelegate.ValidateBasic, MsgIndexDelegate.ValidateBasic, ZeroInt; cbn.
  rewrite Hdel, Hval, Hsrc, Hdst, Ha, checkPortions_skip_good by assumption.
  cbn. unfold ZeroInt. rewrite Hval, Ha.
  split_and!; (reflexivity || discriminate).
Qed.

(** An amount of zero. *)
Lemma C9_nonpositive_amount_error_kinds_witness :
  MsgUndelegate.ValidateBasic
    (MsgUndelegate.mk Samples.addrA Samples.addrB (Samples.stake 0)) =
    Some (ErrBadSharesAmount DefaultCodespace) /\
  MsgDelegate.ValidateBasic
    (MsgDelegate.mk Samples.addrA Samples.addrB (Samples.stake 0)) =
    Some (ErrBadDelegationAmount DefaultCodespace).
Proof.
  assert (Hgood : Forall portionOk [Samples.portion Samples.addrC 7]).
  { repeat constructor; vm_compute; (discriminate || reflexivity). }
  assert (Ha : Amount (Samples.stake 0) <= 0) by (vm_compute; discriminate).
  destruct (C9_nonpositive_amount_error_kinds
              Samples.addrA Samples.addrB Samples.addrB Samples.addrC
              (Samples.stake 0) [Samples.portion Samples.addrC 7] [] "stake")
    as (Hu & _ & Hd & _);
    try assumption; try (vm_compute; discriminate).
  split; assumption.
Defined.

(** ** MsgBeginRedelegate *)

(** C10.  [MsgBeginRedelegate.ValidateBasic] does not ask the source and
    destination validators to differ: with the same non-empty address for
    both, a non-empty delegator address and a positive amount, the message
    passes. *)
Theorem C10_BeginRedelegate_same_validator_ok (msg : MsgBeginRedelegate.t) :
  MsgBeginRedelegate.ValidatorSrcAddress msg = MsgBeginRedelegate.ValidatorDstAddress msg ->
  Empty (MsgBeginRedelegate.ValidatorSrcAddress msg) = false ->
  Empty (MsgBeginRedelegate.DelegatorAddress msg) = false ->
  0 < Amount (MsgBeginRedelegate.Amount msg) ->
  MsgBeginRedelegate.ValidateBasic msg = None.
Proof.
  intros Heq Hsrc Hdel Ha. unfold MsgBeginRedelegate.ValidateBasic.
  rewrite <- Heq, Hsrc, Hdel.
  apply Int_LTE_false in Ha. unfold ZeroInt. rewrite Ha. reflexivity.
Qed.

(** Ten tokens from a validator to itself. *)
Lemma C10_BeginRedelegate_same_validator_ok_witness :
  MsgBeginRedelegate.ValidateBasic
    (MsgBeginRedelegate.NewMsgBeginRedelegate
       Samples.addrA Samples.addrB Samples.addrB (Samples.stake 10)) = None.
Proof.
  apply C10_BeginRedelegate_same_validator_ok; reflexivity.
Defined.

(** ** The indexed delegation on the ledger *)

Lemma ApplyDelegate_failure_writes_nothing s del val amount s' e :
  Ledger.ApplyDelegate s del val amount = (s', Some e) -> s' = s.
Proof.
  unfold Ledger.ApplyDelegate.
  destruct (Ledger.validators s !! val) as [v|]; [| congruence].
  destruct (negb (Ledger.eligible v)); [congruence |].
  destruct (Ledger.sharesFromTokens v amount <=? 0); congruence.
Qed.

Lemma ApplyDelegate_success_validator s del val amount s' :
  Ledger.ApplyDelegate s del val amount = (s', None) ->
  exists v, Ledger.validators s !! val = Some v /\ Ledger.eligible v = true /\
            0 < Ledger.sharesFromTokens v amount.
Proof.
  unfold Ledger.ApplyDelegate.
  destruct (Ledger.validators s !! val) as [v|]; [| congruence].
  destruct (Ledger.eligible v) eqn:He; cbn; [| congruence].
  destruct (Ledger.sharesFromTokens v amount <=? 0) eqn:Hs; [congruence |].
  intros _. exists v. apply Z.leb_gt in Hs. auto.
Qed.

Lemma applyPortions_success_all del ps : forall s s',
  Ledger.applyPortions s del ps = (s', None) -> Ledger.AllApplied del s ps s'.
Proof.
  induction ps as [| p ps IH]; cbn; intros s s' H.
  - injection H as <-. constructor.
  - destruct (Ledger.ApplyDelegate s del (portionValidator p)
                (Amount (portionAmount p))) as [s1 [e|]] eqn:Hstep; [congruence |].
    destruct (ApplyDelegate_success_validator _ _ _ _ _ Hstep) as (v & Hv & He & _).
    econstructor; eauto.
Qed.

Lemma AllApplied_applyPortions del ps : forall s s',
  Ledger.AllApplied del s ps s' -> Ledger.applyPortions s del ps = (s', None).
Proof.
  intros s s' H. induction H as [| s s1 s2 p rest v _ _ Hstep _ IH]; cbn.
  - reflexivity.
  - rewrite Hstep. exact IH.
Qed.

(** The state returned by [ApplyIndexDelegate]: the committed branch or the
    state it was given. *)
Lemma ApplyIndexDelegate_all_or_nothing s del ps :
  (exists s', Ledger.ApplyIndexDelegate s del ps = (s', None) /\
              Ledger.AllApplied del s ps s') \/
  (exists e, Ledger.ApplyIndexDelegate s del ps = (s, Some e)).
Proof.
  unfold Ledger.ApplyIndexDelegate.
  destruct (Ledger.applyPortions s del ps) as [branch [e|]] eqn:Hrun.
  - right. eauto.
  - left. exists branch. split; [reflexivity |].
    apply applyPortions_success_all. exact Hrun.
Qed.

Lemma Zquot_zero_r (a : Z) : Z.quot a 0 = 0.
Proof. destruct a; reflexivity. Qed.

(** A negative amount buys no share from a validator whose totals are not
    negative. *)
Lemma sharesFromTokens_negative v amount :
  amount <= 0 -> 0 <= Ledger.bondedTokens v -> 0 <= Ledger.totalShares v ->
  Ledger.sharesFromTokens v amount <= 0.
Proof.
  intros Ha Ht Hs. unfold Ledger.sharesFromTokens.
  destruct (Ledger.totalShares v =? 0); [assumption |].
  destruct (Z.eq_dec (Ledger.bondedTokens v) 0) as [-> | Hne].
  - rewrite Zquot_zero_r. reflexivity.
  - assert (Hq : 0 <= Z.quot (- (amount * Ledger.totalShares v)) (Ledger.bondedTokens v)).
    { apply Z.quot_pos; nia. }
    rewrite Z.quot_opp_l in Hq by assumption. lia.
Qed.

Lemma ApplyDelegate_eligible_cases s del val v amount :
  Ledger.validators s !! val = Some v -> Ledger.eligible v = true ->
  (Ledger.sharesFromTokens v amount <= 0 /\
   Ledger.ApplyDelegate s del val amount =
     (s, Some (ErrBadDelegationAmount DefaultCodespace))) \/
  (0 < Ledger.sharesFromTokens v amount /\
   Ledger.ApplyDelegate s del val amount = (Ledger.credited s del val v amount, None)).
Proof.
  intros Hv He. unfold Ledger.ApplyDelegate. rewrite Hv, He. cbn.
  destruct (Ledger.sharesFromTokens v amount <=? 0) eqn:Hs.
  - left. apply Z.leb_le in Hs. auto.
  - right. apply Z.leb_gt in Hs. auto.
Qed.

(** A validator that was present, eligible and with totals that are not
    negative is still so after a successful delegation to any validator. *)
Lemma credited_keeps_open s del val v amount val2 v2 :
  Ledger.validators s !! val = Some v ->
  0 < amount -> 0 < Ledger.sharesFromTokens v amount ->
  Ledger.validators s !! val2 = Some v2 -> Ledger.eligible v2 = true ->
  0 <= Ledger.bondedTokens v2 -> 0 <= Ledger.totalShares v2 ->
  exists v2', Ledger.validators (Ledger.credited s del val v amount) !! val2 = Some v2' /\
              Ledger.eligible v2' = true /\
              0 <= Ledger.bondedTokens v2' /\ 0 <= Ledger.totalShares v2'.
Proof.
  intros Hv Ha Hs Hv2 He2 Ht2 Hs2. unfold Ledger.credited; cbn.
  destruct (decide (val = val2)) as [<- | Hne].
  - rewrite lookup_insert_eq. eexists. split; [reflexivity |].
    rewrite Hv in Hv2. injection Hv2 as ->. cbn. split_and!; [assumption | lia | lia].
  - rewrite lookup_insert_ne by assumption. eauto.
Qed.

(** C2.  [ApplyIndexDelegate] is all-or-nothing: it either returns the
    state in which every portion was applied, each to a validator that
    exists and is eligible, or returns an error with the state it was given.
    With ten tokens for V1 and minus five for V2, both open validators, the
    result is a BadDelegationAmount error and the state, hence the shares
    of the delegator at V1, is unchanged; the plain loop of delegations
    would have left the first portion's shares behind. *)
Theorem C2_ApplyIndexDelegate_all_or_nothing :
  (forall s del ps,
     (exists s', Ledger.ApplyIndexDelegate s del ps = (s', None) /\
                 Ledger.AllApplied del s ps s') \/
     (exists e, Ledger.ApplyIndexDelegate s del ps = (s, Some e))) /\
  (forall s del V1 V2 v1 v2 denom,
     Ledger.validators s !! V1 = Some v1 -> Ledger.eligible v1 = true ->
     Ledger.validators s !! V2 = Some v2 -> Ledger.eligible v2 = true ->
     0 <= Ledger.bondedTokens v2 -> 0 <= Ledger.totalShares v2 ->
     let portions := [mkPortion V1 (mkCoin denom 10); mkPortion V2 (mkCoin denom (-5))] in
     Ledger.ApplyIndexDelegate s del portions =
       (s, Some (ErrBadDelegationAmount DefaultCodespace)) /\
     Ledger.sharesOf (fst (Ledger.ApplyIndexDelegate s del portions)) del V1 =
       Ledger.sharesOf s del V1) /\
  (let s := Samples.twoValidators in
   let del := Samples.addrA in
   Ledger.sharesOf s del Samples.addrB = 0 /\
   Ledger.sharesOf (fst (Ledger.applyPortions s del Samples.tenThenMinusFive))
     del Samples.addrB = 10 /\
   Ledger.sharesOf (fst (Ledger.ApplyIndexDelegate s del Samples.tenThenMinusFive))
     del Samples.addrB = 0 /\
   snd (Ledger.ApplyIndexDelegate s del Samples.tenThenMinusFive) =
     Some (ErrBadDelegationAmount DefaultCodespace)).
Proof.
  split_and!.
  - apply ApplyIndexDelegate_all_or_nothing.
  - intros s del V1 V2 v1 v2 denom Hv1 He1 Hv2 He2 Ht2 Hs2 portions.
    assert (Hres : Ledger.ApplyIndexDelegate s del portions =
                     (s, Some (ErrBadDelegationAmount DefaultCodespace))).
    { unfold Ledger.ApplyIndexDelegate, portions. cbn.
      destruct (ApplyDelegate_eligible_cases s del V1 v1 10 Hv1 He1)
        as [[_ ->] | [Hpos ->]]; [reflexivity |].
      destruct (credited_keeps_open s del V1 v1 10 V2 v2)
        as (v2' & Hv2' & He2' & Ht2' & Hs2'); try assumption; [lia |].
      destruct (ApplyDelegate_eligible_cases (Ledger.credited s del V1 v1 10) del V2 v2' (-5)
                  Hv2' He2') as [[_ ->] | [Hpos2 _]]; [reflexivity |].
      pose proof (sharesFromTokens_negative v2' (-5)). lia. }
    rewrite Hres. split; reflexivity.
  - vm_compute. split_and!; reflexivity.
Qed.

(** Two open validators: ten tokens to the first, minus five to the
    second. *)
Lemma C2_ApplyIndexDelegate_all_or_nothing_witness :
  Ledger.ApplyIndexDelegate Samples.twoValidators Samples.addrA
    Samples.tenThenMinusFive =
    (Samples.twoValidators, Some (ErrBadDelegationAmount DefaultCodespace)).
Proof.
  destruct C2_ApplyIndexDelegate_all_or_nothing as (_ & Hrollback & _).
  apply (Hrollback Samples.twoValidators Samples.addrA Samples.addrB Samples.addrC
           Samples.openValidator Samples.openValidator "stake");
    vm_compute; (reflexivity || discriminate).
Defined.

(** ** JSON transcoding of MsgCreateValidator *)

Lemma MarshalJSON_wireOf cdc msg pub :
  MustBech32ifyConsPub cdc (MsgCreateValidator.PubKey msg) = Ret pub ->
  CreateValidatorJSON.MarshalJSON cdc msg =
    json_Marshal cdc (CreateValidatorJSON.wireOf msg pub).
Proof.
  intros Hpub. unfold CreateValidatorJSON.MarshalJSON. rewrite Hpub. reflexivity.
Qed.

Lemma UnmarshalJSON_decoded cdc msg0 bz j pk :
  json_Unmarshal cdc bz = Ret (j, None) ->
  GetConsPubKeyBech32 cdc (jPubKey j) = Ret (pk, None) ->
  CreateValidatorJSON.UnmarshalJSON cdc msg0 bz =
    Ret ({| MsgCreateValidator.Description := jDescription j;
            MsgCreateValidator.Commission := jCommission j;
            MsgCreateValidator.MinSelfDelegation := jMinSelfDelegation j;
            MsgCreateValidator.DelegatorAddress := jDelegatorAddress j;
            MsgCreateValidator.ValidatorAddress := jValidatorAddress j;
            MsgCreateValidator.PubKey := pk;
            MsgCreateValidator.Value := jValue j;
            MsgCreateValidator.ShareTokenDenom := jShareTokenDenom j |}, None).
Proof.
  intros Hj Hpk. unfold CreateValidatorJSON.UnmarshalJSON.
  rewrite Hj. cbn. rewrite Hpk. reflexivity.
Qed.

(** The concrete transcoder's key codec: every non-empty key is valid. *)
Lemma Wire_hex_byte (b : Byte.byte) :
  let n := Byte.to_N b in
  Wire.nibble (Wire.hexDigit (n / 16)) = Some (n / 16)%N /\
  Wire.nibble (Wire.hexDigit (n mod 16)) = Some (n mod 16)%N /\
  Byte.of_N (16 * (n / 16) + n mod 16) = Some b.
Proof. destruct b; vm_compute; auto. Qed.

Lemma Wire_hex_roundtrip (bs : bytes) :
  Wire.bytesOfHex (Wire.hexOfBytes bs) = Some bs.
Proof.
  induction bs as [| b bs IH]; [reflexivity |].
  destruct (Wire_hex_byte b) as (Hhi & Hlo & Hb).
  cbn [Wire.hexOfBytes Wire.bytesOfHex].
  rewrite Hhi, Hlo, IH, Hb. reflexivity.
Qed.

Lemma Wire_stripPrefix (p s : string) : Wire.stripPrefix p (p +:+ s) = Some s.
Proof.
  induction p as [| a p IH]; simpl; [destruct s; reflexivity |].
  rewrite Ascii.eqb_refl. exact IH.
Qed.

Lemma Wire_validPubKey (pk : crypto.PubKey) :
  pk <> [] -> CreateValidatorJSON.validPubKey Wire.transcoder pk.
Proof.
  intros Hpk. destruct pk as [| b bs]; [contradiction |].
  exists (Wire.consPubPrefix +:+ Wire.hexOfBytes (b :: bs)). split; [reflexivity |].
  cbn [GetConsPubKeyBech32 Wire.transcoder]. unfold Wire.getConsPubKey.
  rewrite Wire_stripPrefix. cbn [mbind option_bind].
  rewrite Wire_hex_roundtrip. reflexivity.
Qed.

(** ** The modelled codec reads back what it writes *)

Lemma Wire_print_object (ms : list (string * Wire.jvalue)) :
  Wire.print (Wire.JObject ms) = "{"%char :: Wire.printMembers ms ++ ["}"%char].
Proof.
  reflexivity.
Qed.

Lemma Wire_readString_escape (s : string) (rest : list ascii) :
  Wire.readString (Wire.escape s ++ Wire.dquote :: rest) = Some (s, rest).
Proof.
  induction s as [| c s IH]; [reflexivity |].
  cbn [Wire.escape].
  destruct (Ascii.eqb c Wire.dquote) eqn:Hq; cbn [orb].
  - cbn [app Wire.readString]. change (Ascii.eqb Wire.backslash Wire.dquote) with false.
    change (Ascii.eqb Wire.backslash Wire.backslash) with true. cbn iota.
    rewrite IH. reflexivity.
  - destruct (Ascii.eqb c Wire.backslash) eqn:Hb.
    + cbn [app Wire.readString]. change (Ascii.eqb Wire.backslash Wire.dquote) with false.
      change (Ascii.eqb Wire.backslash Wire.backslash) with true. cbn iota.
      rewrite IH. reflexivity.
    + cbn [app Wire.readString]. rewrite Hq, Hb, IH. reflexivity.
Qed.

Lemma Wire_quoted_app (s : string) (rest : list ascii) :
  Wire.quoted s ++ rest = Wire.dquote :: Wire.escape s ++ Wire.dquote :: rest.
Proof. unfold Wire.quoted. cbn. rewrite <- app_assoc. reflexivity. Qed.

Lemma Wire_quoted_length (s : string) : (2 <= length (Wire.quoted s))%nat.
Proof. unfold Wire.quoted. cbn. rewrite length_app. cbn. lia. Qed.

Lemma Wire_print_length (v : Wire.jvalue) : (2 <= length (Wire.print v))%nat.
Proof.
  destruct v as [| s | ms].
  - cbn. lia.
  - apply Wire_quoted_length.
  - rewrite Wire_print_object. cbn. rewrite length_app. cbn. lia.
Qed.

Lemma Wire_printMembers_cons k v (ms : list (string * Wire.jvalue)) :
  Wire.printMembers ((k, v) :: ms) =
    Wire.dquote :: Wire.escape k ++ Wire.dquote :: ":"%char :: Wire.print v ++
      match ms with
      | [] => []
      | _ :: _ => ","%char :: Wire.printMembers ms
      end.
Proof.
  cbn [Wire.printMembers]. rewrite Wire_quoted_app. reflexivity.
Qed.

Lemma Wire_parseValue_string fuel s rest :
  Wire.parseValue (S fuel) (Wire.dquote :: Wire.escape s ++ Wire.dquote :: rest) =
    Some (Wire.JString s, rest).
Proof.
  change (Wire.parseValue (S fuel) (Wire.dquote :: Wire.escape s ++ Wire.dquote :: rest))
    with (match Wire.readString (Wire.escape s ++ Wire.dquote :: rest) with
          | Some (s', rest') => Some (Wire.JString s', rest')
          | None => None
          end).
  rewrite Wire_readString_escape. reflexivity.
Qed.

Lemma Wire_parseValue_object fuel (t : list ascii) :
  Wire.parseValue (S fuel) ("{"%char :: Wire.dquote :: t) =
    match Wire.parseMembers fuel (Wire.dquote :: t) with
    | Some (ms, rest') => Some (Wire.JObject ms, rest')
    | None => None
    end.
Proof. reflexivity. Qed.

Lemma Wire_parseMembers_step fuel k (t : list ascii) :
  Wire.parseMembers (S fuel) (Wire.dquote :: Wire.escape k ++ Wire.dquote :: ":"%char :: t) =
    match Wire.parseValue fuel t with
    | Some (v, ","%char :: rest2) =>
        match Wire.parseMembers fuel rest2 with
        | Some (ms, rest3) => Some ((k, v) :: ms, rest3)
        | None => None
        end
    | Some (v, "}"%char :: rest2) => Some ([(k, v)], rest2)
    | _ => None
    end.
Proof.
  change (Wire.parseMembers (S fuel)
            (Wire.dquote :: Wire.escape k ++ Wire.dquote :: ":"%char :: t))
    with (match Wire.readString (Wire.escape k ++ Wire.dquote :: ":"%char :: t) with
          | Some (k', ":"%char :: rest1) =>
              match Wire.parseValue fuel rest1 with
              | Some (v, ","%char :: rest2) =>
                  match Wire.parseMembers fuel rest2 with
                  | Some (ms, rest3) => Some ((k', v) :: ms, rest3)
                  | None => None
                  end
              | Some (v, "}"%char :: rest2) => Some ([(k', v)], rest2)
              | _ => None
              end
          | _ => None
          end).
  rewrite Wire_readString_escape. reflexivity.
Qed.

Lemma Wire_parse_print_fuel (fuel : nat) :
  (forall v rest, (length (Wire.print v) <= fuel)%nat ->
     Wire.parseValue fuel (Wire.print v ++ rest) = Some (v, rest)) /\
  (forall ms rest, ms <> [] -> (length (Wire.printMembers ms) <= fuel)%nat ->
     Wire.parseMembers fuel (Wire.printMembers ms ++ "}"%char :: rest) = Some (ms, rest)).
Proof.
  induction fuel as [| fuel [IHv IHm]].
  - split.
    + intros v rest Hlen. pose proof (Wire_print_length v). lia.
    + intros [| [k v] ms] rest Hne Hlen; [contradiction |].
      rewrite Wire_printMembers_cons in Hlen. cbn in Hlen. lia.
  - split.
    + intros [| s | ms] rest Hlen.
      * reflexivity.
      * cbn [Wire.print]. rewrite Wire_quoted_app. apply Wire_parseValue_string.
      * rewrite Wire_print_object in *. destruct ms as [| [k v] ms]; [reflexivity |].
        cbn [app]. rewrite <- app_assoc. cbn [app].
        cbn [length] in Hlen. rewrite length_app in Hlen. cbn [length] in Hlen.
        assert (Hm : Wire.parseMembers fuel
                       (Wire.printMembers ((k, v) :: ms) ++ "}"%char :: rest) =
                     Some ((k, v) :: ms, rest)).
        { apply IHm; [discriminate | lia]. }
        rewrite Wire_printMembers_cons in *. cbn [app] in *.
        rewrite Wire_parseValue_object, Hm. reflexivity.
    + intros [| [k v] ms] rest Hne Hlen; [contradiction |].
      rewrite Wire_printMembers_cons in *.
      cbn [length] in Hlen. rewrite !length_app in Hlen. cbn [length] in Hlen.
      rewrite !length_app in Hlen.
      cbn [app]. rewrite <- !app_assoc. cbn [app]. rewrite <- !app_assoc.
      rewrite Wire_parseMembers_step.
      rewrite IHv by lia.
      destruct ms as [| m ms]; [reflexivity |].
      cbn [app]. cbn [length] in Hlen.
      rewrite IHm; [reflexivity | discriminate | lia].
Qed.

Lemma Wire_parse_print (v : Wire.jvalue) : Wire.parse (Wire.print v) = Some v.
Proof.
  unfold Wire.parse.
  destruct (Wire_parse_print_fuel (S (length (Wire.print v)))) as [Hv _].
  rewrite <- (app_nil_r (Wire.print v)) at 2.
  rewrite Hv by lia. reflexivity.
Qed.

(** Decides the comparisons of field names met while looking a field up. *)
Ltac field_names :=
  repeat match goal with
  | |- context [bool_decide (?a = ?b)] =>
      let v := eval vm_compute in (bool_decide (a = b)) in
      change (bool_decide (a = b)) with v
  end; cbn [fmap option_fmap option_map snd fst mbind option_bind].

Lemma Wire_int_text (i : Int) : Wire.intOfText (Wire.textOfInt i) = Some i.
Proof.
  unfold Wire.intOfText, Wire.textOfInt.
  rewrite DecimalString.NilZero.isi.
  - cbn. rewrite DecimalZ.of_to. reflexivity.
  - destruct i as [| p | p]; cbn; try discriminate.
    intros [= H]. exact (DecimalPos.Unsigned.to_uint_nonnil p H).
  - destruct i as [| p | p]; cbn; try discriminate.
    intros [= H]. exact (DecimalPos.Unsigned.to_uint_nonnil p H).
Qed.

Lemma Wire_dec_value (d : option Dec) : Wire.asDec (Wire.ofDec d) = Some d.
Proof.
  destruct d as [i |]; [| reflexivity].
  cbn. rewrite Wire_int_text. reflexivity.
Qed.

Lemma Wire_description_value (d : Description) :
  Wire.asDescription (Wire.ofDescription d) = Some d.
Proof. destruct d. reflexivity. Qed.

Lemma Wire_commission_value (c : CommissionMsg) :
  Wire.asCommission (Wire.ofCommission c) = Some c.
Proof.
  destruct c as [r m x]. unfold Wire.asCommission, Wire.ofCommission.
  cbn -[Wire.asDec Wire.ofDec]. field_names. rewrite !Wire_dec_value. reflexivity.
Qed.

Lemma Wire_coin_value (c : Coin) : Wire.asCoin (Wire.ofCoin c) = Some c.
Proof.
  destruct c as [dn a]. unfold Wire.asCoin, Wire.ofCoin, Wire.asInt.
  cbn -[Wire.intOfText Wire.textOfInt]. field_names. cbn [Wire.asText mbind option_bind].
  rewrite Wire_int_text. reflexivity.
Qed.

Lemma Wire_struct_value (j : msgCreateValidatorJSON) :
  Wire.asWire (Wire.ofWire j) = Some j.
Proof.
  destruct j as [d c m da va pk v st]. unfold Wire.asWire, Wire.ofWire.
  cbn -[Wire.asDescription Wire.ofDescription Wire.asCommission Wire.ofCommission
        Wire.asCoin Wire.ofCoin Wire.asInt Wire.asBytes Wire.textOfInt
        Wire.hexOfBytes].
  field_names.
  rewrite Wire_description_value. cbn [mbind option_bind].
  rewrite Wire_commission_value. cbn [mbind option_bind].
  unfold Wire.asInt, Wire.asBytes. cbn [Wire.asText mbind option_bind].
  rewrite Wire_int_text. cbn [mbind option_bind].
  rewrite !Wire_hex_roundtrip. cbn [mbind option_bind].
  rewrite Wire_coin_value. reflexivity.
Qed.

(** The modelled JSON library reads back every wire struct it wrote. *)
Lemma Wire_unmarshal_marshal (j : msgCreateValidatorJSON) :
  exists bz, Wire.marshal j = Ret (bz, None) /\ Wire.unmarshal bz = Ret (j, None).
Proof.
  eexists. split; [reflexivity |].
  unfold Wire.unmarshal. rewrite map_map.
  rewrite (map_ext _ (fun c => c) ascii_of_byte_of_ascii), map_id.
  rewrite Wire_parse_print. cbn [mbind option_bind].
  rewrite Wire_struct_value. reflexivity.
Qed.

Lemma Wire_readsBack (j : msgCreateValidatorJSON) :
  CreateValidatorJSON.readsBack Wire.transcoder j.
Proof.
  intros bz Hbz. destruct (Wire_unmarshal_marshal j) as (bz' & Hm & Hu).
  cbn in Hbz. rewrite Hm in Hbz. injection Hbz as <-. exact Hu.
Qed.








(** * Further properties of the messages *)

(** Case analysis on the guards of a [ValidateBasic], in order. *)
Ltac walk_guards :=
  repeat match goal with
  | |- context [if ?b then _ else _] => destruct b eqn:?; guards
  end.

(** ** Creation *)

Lemma CreateValidator_accepts_wellformed (msg : MsgCreateValidator.t) :
  MsgCreateValidator.ValidateBasic msg = None <-> CreateValidator_wellformed msg.
Proof.
  destruct msg as [d c m da va pk [dn v] st].
  unfold CreateValidator_wellformed, MsgCreateValidator.ValidateBasic,
    AccAddress_of_Val, ZeroInt; cbn.
  walk_guards;
    (split; [try discriminate; intros _ | try reflexivity; intros Hwf]);
    try (split_and!; (assumption || congruence || lia));
    destruct Hwf as (? & ? & ? & ? & ? & ? & ? & ? & ?);
    first [contradiction | congruence | lia].
Qed.

(** X1.  A creation that passes [ValidateBasic] has exactly one signer, the
    delegator: the branch of [GetSigners] that appends the validator is
    never taken on a message that passed. *)
Theorem CreateValidator_valid_single_signer (msg : MsgCreateValidator.t) :
  MsgCreateValidator.ValidateBasic msg = None ->
  MsgCreateValidator.GetSigners msg = [MsgCreateValidator.DelegatorAddress msg].
Proof.
  intros Hok. apply CreateValidator_accepts_wellformed in Hok.
  destruct Hok as (_ & _ & Heq & _).
  destruct (CreateValidator_GetSigners_cases msg) as [[_ Hs] | [Hne _]];
    [exact Hs | contradiction].
Qed.

(** The sample creation with minimum self delegation 50. *)
Lemma CreateValidator_valid_single_signer_witness :
  MsgCreateValidator.GetSigners (Samples.createWithMin 50) = [Samples.addrA].
Proof.
  apply (CreateValidator_valid_single_signer (Samples.createWithMin 50)).
  reflexivity.
Defined.

(** X2.  [NewMsgCreateValidator] builds a self-bonded message: its only
    signer is the validator address given, [ValidateBasic] never answers
    that the validator address is nil or bad, and it passes exactly when
    the address is non-empty, the self delegation is positive and at least
    the positive minimum, and description, commission and share token
    denomination are given. *)
Theorem NewMsgCreateValidator_self_bonded
  (valAddr : ValAddress) (pubKey : crypto.PubKey) (selfDelegation : Coin)
  (description : Description) (commission : CommissionMsg)
  (minSelfDelegation : Int) (shareTokenDenom : string) :
  let msg := MsgCreateValidator.NewMsgCreateValidator valAddr pubKey selfDelegation
               description commission minSelfDelegation shareTokenDenom in
  MsgCreateValidator.GetSigners msg = [valAddr] /\
  MsgCreateValidator.ValidateBasic msg <> Some (ErrNilValidatorAddr DefaultCodespace) /\
  MsgCreateValidator.ValidateBasic msg <> Some (ErrBadValidatorAddr DefaultCodespace) /\
  (MsgCreateValidator.ValidateBasic msg = None <->
     valAddr <> [] /\ 0 < Amount selfDelegation /\
     description <> Description_zero /\ commission <> CommissionMsg_zero /\
     shareTokenDenom <> "" /\
     0 < minSelfDelegation /\ minSelfDelegation <= Amount selfDelegation).
Proof.
  cbn zeta. split_and!.
  - unfold MsgCreateValidator.GetSigners, MsgCreateValidator.NewMsgCreateValidator,
      AccAddress_of_Val, Bytes; cbn.
    assert (H : bytes_Equal valAddr valAddr = true) by (apply bytes_Equal_true; reflexivity).
    rewrite H. reflexivity.
  - unfold MsgCreateValidator.ValidateBasic, MsgCreateValidator.NewMsgCreateValidator,
      AccAddress_of_Val; cbn.
    destruct (Empty valAddr); [discriminate |].
    walk_guards; discriminate.
  - unfold MsgCreateValidator.ValidateBasic, MsgCreateValidator.NewMsgCreateValidator,
      AccAddress_of_Val; cbn.
    destruct (Empty valAddr) eqn:He; [discriminate |].
    assert (H : Equals valAddr valAddr = true) by (apply Equals_true; reflexivity).
    rewrite H; cbn. walk_guards; discriminate.
  - rewrite CreateValidator_accepts_wellformed.
    unfold CreateValidator_wellformed, MsgCreateValidator.NewMsgCreateValidator,
      AccAddress_of_Val; cbn.
    split; [intros (? & ? & ? & ? & ? & ? & ? & ? & ?) | intros (? & ? & ? & ? & ? & ? & ?)];
      split_and!; (assumption || reflexivity).
Qed.

(** X3.  Which rejection [MsgCreateValidator.ValidateBasic] gives: the
    guards are tried in the order of the source and the first that fails
    decides, so each error, the three invalid-input errors with their own
    texts included, is returned exactly when the guards before it pass and
    its own fails; in particular a value that is not positive is reported
    as BadDelegationAmount whatever the minimum self delegation, a missing
    description hides a missing commission, which hides a missing share
    token denomination, and SelfDelegationBelowMinimum is given only on a
    message that is otherwise in order. *)
Theorem CreateValidator_rejections (msg : MsgCreateValidator.t) :
  let del := MsgCreateValidator.DelegatorAddress msg in
  let val := MsgCreateValidator.ValidatorAddress msg in
  let value := Amount (MsgCreateValidator.Value msg) in
  let minSelf := MsgCreateValidator.MinSelfDelegation msg in
  let desc := MsgCreateValidator.Description msg in
  let com := MsgCreateValidator.Commission msg in
  let denom := MsgCreateValidator.ShareTokenDenom msg in
  let described :=
    desc <> Description_zero /\ com <> CommissionMsg_zero /\ denom <> "" in
  let result := MsgCreateValidator.ValidateBasic msg in
  (result = Some (ErrNilDelegatorAddr DefaultCodespace) <-> del = []) /\
  (result = Some (ErrNilValidatorAddr DefaultCodespace) <-> del <> [] /\ val = []) /\
  (result = Some (ErrBadValidatorAddr DefaultCodespace) <->
     del <> [] /\ val <> [] /\ val <> del) /\
  (result = Some (ErrBadDelegationAmount DefaultCodespace) <->
     del <> [] /\ val = del /\ value <= 0) /\
  (result = Some (NewError DefaultCodespace CodeInvalidInput
                    "description must be included") <->
     del <> [] /\ val = del /\ 0 < value /\ desc = Description_zero) /\
  (result = Some (NewError DefaultCodespace CodeInvalidInput
                    "commission must be included") <->
     del <> [] /\ val = del /\ 0 < value /\ desc <> Description_zero /\
     com = CommissionMsg_zero) /\
  (result = Some (NewError DefaultCodespace CodeInvalidInput
                    "share token denomination must be included.") <->
     del <> [] /\ val = del /\ 0 < value /\ desc <> Description_zero /\
     com <> CommissionMsg_zero /\ denom = "") /\
  (result = Some (ErrMinSelfDelegationInvalid DefaultCodespace) <->
     del <> [] /\ val = del /\ 0 < value /\ described /\ minSelf <= 0) /\
  (result = Some (ErrSelfDelegationBelowMinimum DefaultCodespace) <->
     del <> [] /\ val = del /\ described /\ 0 < minSelf /\ 0 < value < minSelf) /\
  (result = None <->
     del <> [] /\ val = del /\ described /\ 0 < minSelf /\ minSelf <= value).
Proof.
  destruct msg as [d c m da va pk [dn v] st].
  unfold MsgCreateValidator.ValidateBasic, AccAddress_of_Val, ZeroInt; cbn.
  walk_guards; split_and!;
    (split; intros H;
     first
       [ discriminate H
       | reflexivity
       | assumption
       | solve [split_and!; first [assumption | congruence | lia | tauto]]
       | exfalso; first [tauto | congruence | lia | intuition (congruence || lia)] ]).
Qed.

(** X19.  [MsgCreateValidator.ValidateBasic] never looks at the public
    key: replacing the key changes neither the verdict nor the signers, so
    a creation can pass with a key that [MarshalJSON] cannot write, in
    which case [MarshalJSON] panics. *)
Theorem CreateValidator_ValidateBasic_ignores_pubkey
  (msg : MsgCreateValidator.t) (pk : crypto.PubKey) :
  MsgCreateValidator.ValidateBasic (withPubKey msg pk) =
    MsgCreateValidator.ValidateBasic msg /\
  MsgCreateValidator.GetSigners (withPubKey msg pk) =
    MsgCreateValidator.GetSigners msg /\
  (forall cdc reason,
     MustBech32ifyConsPub cdc pk = Panic reason ->
     CreateValidatorJSON.MarshalJSON cdc (withPubKey msg pk) = Panic reason).
Proof.
  split_and!; try reflexivity.
  intros cdc reason Hpanic.
  unfold CreateValidatorJSON.MarshalJSON, withPubKey; cbn.
  rewrite Hpanic. reflexivity.
Qed.

(** The sample creation with its key removed passes the stateless check
    and makes the concrete transcoder panic. *)
Lemma CreateValidator_ValidateBasic_ignores_pubkey_witness :
  MsgCreateValidator.ValidateBasic (withPubKey (Samples.createWithMin 50) []) = None /\
  CreateValidatorJSON.MarshalJSON Wire.transcoder
    (withPubKey (Samples.createWithMin 50) []) = Panic "empty public key".
Proof.
  destruct (CreateValidator_ValidateBasic_ignores_pubkey (Samples.createWithMin 50) [])
    as (Hsame & _ & Hpanic).
  split.
  - rewrite Hsame. reflexivity.
  - apply Hpanic. reflexivity.
Defined.

(** ** Edition *)

(** X4.  Which rejection [MsgEditValidator.ValidateBasic] gives: an empty
    validator address first, then a default description, then a minimum
    self delegation that is present and not positive, and only then a
    commission rate that is present and outside [0, 1]; so a bad minimum
    self delegation hides a bad rate. *)
Theorem EditValidator_rejections (msg : MsgEditValidator.t) :
  let val := MsgEditValidator.ValidatorAddress msg in
  let desc := MsgEditValidator.Description msg in
  let minSelf := MsgEditValidator.MinSelfDelegation msg in
  let rate := MsgEditValidator.CommissionRate msg in
  let result := MsgEditValidator.ValidateBasic msg in
  (result = Some (NewError DefaultCodespace CodeInvalidInput "nil validator address") <->
     val = []) /\
  (result = Some (NewError DefaultCodespace CodeInvalidInput
                    "transaction must include some information to modify") <->
     val <> [] /\ desc = Description_zero) /\
  (result = Some (ErrMinSelfDelegationInvalid DefaultCodespace) <->
     val <> [] /\ desc <> Description_zero /\ exists m, minSelf = Some m /\ m <= 0) /\
  (result = Some (NewError DefaultCodespace CodeInvalidInput
                    "commission rate must be between 0 and 1, inclusive") <->
     val <> [] /\ desc <> Description_zero /\
     (forall m, minSelf = Some m -> 0 < m) /\
     exists r, rate = Some r /\ (OneDec < r \/ r < ZeroDec)).
Proof.
  destruct msg as [d va cr msd].
  unfold MsgEditValidator.ValidateBasic, ZeroInt; cbn.
  destruct (Empty va) eqn:Hva; guards.
  { split_and!; (split; [intros H; first [discriminate H | assumption]
                        | intros H; first [reflexivity | exfalso; tauto]]). }
  destruct (bool_decide (d = Description_zero)) eqn:Hd; guards.
  { split_and!; (split; [intros H; first [discriminate H | split; assumption]
                        | intros H; first [reflexivity | exfalso; tauto]]). }
  destruct msd as [m|], cr as [r|]; walk_guards;
    repeat match goal with Hor : _ \/ _ |- _ => destruct Hor end; guards;
    split_and!;
    (split; intros Hyp;
     first
       [ discriminate Hyp
       | reflexivity
       | contradiction
       | exfalso; tauto
       | solve [split_and!; first [assumption | eexists; split; [reflexivity | lia]
                                  | intros ? [= <-]; lia | intros ? [=] ]]
       | solve [destruct Hyp as (_ & _ & m' & [= <-] & ?); lia]
       | solve [destruct Hyp as (_ & _ & m' & [=] & ?)]
       | solve [destruct Hyp as (_ & _ & Hm & r' & [= <-] & ?); lia]
       | solve [destruct Hyp as (_ & _ & Hm & r' & [=] & ?)]
       | solve [destruct Hyp as (_ & _ & Hm & r' & _ & ?);
                specialize (Hm _ eq_refl); lia] ]).
Qed.

(** X5.  The bounds of the commission rate are inclusive: on an edit with
    a validator address and a description, and no minimum self delegation,
    the rates zero and one pass, while one unit of the last decimal place
    above one or below zero is rejected. *)
Theorem EditValidator_rate_bounds (val : ValAddress) (desc : Description) :
  val <> [] -> desc <> Description_zero ->
  let edit r := MsgEditValidator.NewMsgEditValidator val desc (Some r) None in
  let outOfRange := Some (NewError DefaultCodespace CodeInvalidInput
                            "commission rate must be between 0 and 1, inclusive") in
  MsgEditValidator.ValidateBasic (edit ZeroDec) = None /\
  MsgEditValidator.ValidateBasic (edit OneDec) = None /\
  MsgEditValidator.ValidateBasic (edit (OneDec + 1)) = outOfRange /\
  MsgEditValidator.ValidateBasic (edit (ZeroDec - 1)) = outOfRange.
Proof.
  intros Hval Hdesc. cbn zeta.
  unfold MsgEditValidator.ValidateBasic, MsgEditValidator.NewMsgEditValidator; cbn.
  apply Empty_false in Hval. rewrite Hval.
  rewrite bool_decide_eq_false_2 by assumption.
  split_and!; reflexivity.
Qed.

(** The sample validator and description. *)
Lemma EditValidator_rate_bounds_witness :
  MsgEditValidator.ValidateBasic
    (MsgEditValidator.NewMsgEditValidator Samples.addrA Samples.someDescription
       (Some OneDec) None) = None.
Proof.
  destruct (EditValidator_rate_bounds Samples.addrA Samples.someDescription)
    as (_ & Hone & _); [discriminate | discriminate | exact Hone].
Defined.

(** ** Delegation, undelegation, redelegation *)

(** X6.  [MsgDelegate.ValidateBasic]: success exactly for a non-empty
    delegator, a non-empty validator and a positive amount, and otherwise
    the error of the first of these that fails. *)
Theorem Delegate_ValidateBasic_table (msg : MsgDelegate.t) :
  let del := MsgDelegate.DelegatorAddress msg in
  let val := MsgDelegate.ValidatorAddress msg in
  let amount := Amount (MsgDelegate.Amount msg) in
  let result := MsgDelegate.ValidateBasic msg in
  (result = None <-> del <> [] /\ val <> [] /\ 0 < amount) /\
  (result = Some (ErrNilDelegatorAddr DefaultCodespace) <-> del = []) /\
  (result = Some (ErrNilValidatorAddr DefaultCodespace) <-> del <> [] /\ val = []) /\
  (result = Some (ErrBadDelegationAmount DefaultCodespace) <->
     del <> [] /\ val <> [] /\ amount <= 0).
Proof.
  destruct msg as [da va [dn v]].
  unfold MsgDelegate.ValidateBasic, ZeroInt; cbn.
  walk_guards; split_and!;
    (split; intros H;
     first [ discriminate H | reflexivity | assumption
           | solve [split_and!; first [assumption | lia]]
           | exfalso; first [tauto | lia | intuition lia] ]).
Qed.

(** X7.  [MsgUndelegate.ValidateBasic]: the same three guards as a
    delegation, the amount being reported as BadSharesAmount. *)
Theorem Undelegate_ValidateBasic_table (msg : MsgUndelegate.t) :
  let del := MsgUndelegate.DelegatorAddress msg in
  let val := MsgUndelegate.ValidatorAddress msg in
  let amount := Amount (MsgUndelegate.Amount msg) in
  let result := MsgUndelegate.ValidateBasic msg in
  (result = None <-> del <> [] /\ val <> [] /\ 0 < amount) /\
  (result = Some (ErrNilDelegatorAddr DefaultCodespace) <-> del = []) /\
  (result = Some (ErrNilValidatorAddr DefaultCodespace) <-> del <> [] /\ val = []) /\
  (result = Some (ErrBadSharesAmount DefaultCodespace) <->
     del <> [] /\ val <> [] /\ amount <= 0).
Proof.
  destruct msg as [da va [dn v]].
  unfold MsgUndelegate.ValidateBasic, ZeroInt; cbn.
  walk_guards; split_and!;
    (split; intros H;
     first [ discriminate H | reflexivity | assumption
           | solve [split_and!; first [assumption | lia]]
           | exfalso; first [tauto | lia | intuition lia] ]).
Qed.

(** X8.  [MsgBeginRedelegate.ValidateBasic]: success exactly for a
    non-empty delegator, source and destination and a positive amount; an
    empty source and an empty destination give the same NilValidatorAddr
    error, so the error does not tell which of the two is missing. *)
Theorem BeginRedelegate_ValidateBasic_table (msg : MsgBeginRedelegate.t) :
  let del := MsgBeginRedelegate.DelegatorAddress msg in
  let src := MsgBeginRedelegate.ValidatorSrcAddress msg in
  let dst := MsgBeginRedelegate.ValidatorDstAddress msg in
  let amount := Amount (MsgBeginRedelegate.Amount msg) in
  let result := MsgBeginRedelegate.ValidateBasic msg in
  (result = None <-> del <> [] /\ src <> [] /\ dst <> [] /\ 0 < amount) /\
  (result = Some (ErrNilDelegatorAddr DefaultCodespace) <-> del = []) /\
  (result = Some (ErrNilValidatorAddr DefaultCodespace) <->
     del <> [] /\ (src = [] \/ dst = [])) /\
  (result = Some (ErrBadSharesAmount DefaultCodespace) <->
     del <> [] /\ src <> [] /\ dst <> [] /\ amount <= 0).
Proof.
  destruct msg as [da sa dsa [dn v]].
  unfold MsgBeginRedelegate.ValidateBasic, ZeroInt; cbn.
  walk_guards; split_and!;
    (split; intros H;
     first [ discriminate H | reflexivity | assumption
           | solve [split_and!; first [assumption | lia | tauto]]
           | exfalso; first [tauto | lia | intuition lia] ]).
Qed.

(** ** Indexed delegation *)

Lemma checkPortions_None_iff (ps : list ValidatorPortion) :
  MsgIndexDelegate.checkPortions ps = None <-> Forall portionOk ps.
Proof.
  induction ps as [| p ps IH]; cbn.
  - split; [constructor | reflexivity].
  - unfold ZeroInt. walk_guards.
    + split; [discriminate |]. intros Hall. apply Forall_cons in Hall.
      destruct Hall as [[Hv _] _]. contradiction.
    + split; [discriminate |]. intros Hall. apply Forall_cons in Hall.
      destruct Hall as [[_ Ha] _]. lia.
    + rewrite IH, Forall_cons. unfold portionOk. tauto.
Qed.

Lemma checkPortions_app (ps qs : list ValidatorPortion) :
  MsgIndexDelegate.checkPortions (ps ++ qs) =
    match MsgIndexDelegate.checkPortions ps with
    | Some e => Some e
    | None => MsgIndexDelegate.checkPortions qs
    end.
Proof.
  induction ps as [| p ps IH]; cbn; [reflexivity |].
  destruct (Empty (portionValidator p)); [reflexivity |].
  destruct (Int_LTE _ _); [reflexivity | exact IH].
Qed.

Lemma portionOk_as_Delegate (del : AccAddress) (p : ValidatorPortion) :
  del <> [] ->
  (portionOk p <-> MsgDelegate.ValidateBasic (delegateOf del p) = None).
Proof.
  intros Hdel. apply Empty_false in Hdel.
  destruct p as [va [dn v]].
  unfold portionOk, delegateOf, MsgDelegate.ValidateBasic, ZeroInt; cbn.
  rewrite Hdel. walk_guards; split; intros H;
    first [discriminate H | reflexivity | split; assumption
          | destruct H; first [contradiction | lia]].
Qed.

(** X9.  [MsgIndexDelegate.ValidateBasic] passes exactly when the
    delegator address is non-empty and every portion has a non-empty
    validator address and a positive amount. *)
Theorem IndexDelegate_ValidateBasic_iff (msg : MsgIndexDelegate.t) :
  MsgIndexDelegate.ValidateBasic msg = None <->
    MsgIndexDelegate.DelegatorAddress msg <> [] /\
    Forall portionOk (MsgIndexDelegate.Portions msg).
Proof.
  unfold MsgIndexDelegate.ValidateBasic.
  destruct (Empty (MsgIndexDelegate.DelegatorAddress msg)) eqn:Hdel; guards.
  - split; [discriminate | tauto].
  - rewrite checkPortions_None_iff. tauto.
Qed.

(** X10.  Validation of a concatenated portion list: the result is the
    rejection of the first part if it has one, and otherwise the result of
    the second part. *)
Theorem IndexDelegate_ValidateBasic_app
  (del : AccAddress) (ps qs : list ValidatorPortion) (denom : string) :
  MsgIndexDelegate.ValidateBasic (MsgIndexDelegate.mk del (ps ++ qs) denom) =
    match MsgIndexDelegate.ValidateBasic (MsgIndexDelegate.mk del ps denom) with
    | Some e => Some e
    | None => MsgIndexDelegate.ValidateBasic (MsgIndexDelegate.mk del qs denom)
    end.
Proof.
  unfold MsgIndexDelegate.ValidateBasic; cbn.
  destruct (Empty del); [reflexivity |].
  apply checkPortions_app.
Qed.

(** X11.  An indexed delegation validates like the plain delegations it
    stands for: with one portion the result is that of [MsgDelegate] with
    the same delegator, validator and amount, error included; with any
    number of portions the message passes exactly when the delegator is
    non-empty and every portion passes as a plain delegation. *)
Theorem IndexDelegate_as_Delegates (del : AccAddress) (denom : string) :
  (forall p,
     MsgIndexDelegate.ValidateBasic (MsgIndexDelegate.mk del [p] denom) =
       MsgDelegate.ValidateBasic (delegateOf del p)) /\
  (forall ps,
     MsgIndexDelegate.ValidateBasic (MsgIndexDelegate.mk del ps denom) = None <->
       del <> [] /\
       Forall (fun p => MsgDelegate.ValidateBasic (delegateOf del p) = None) ps).
Proof.
  split.
  - intros [va [dn v]].
    unfold MsgIndexDelegate.ValidateBasic, MsgDelegate.ValidateBasic, delegateOf; cbn.
    destruct (Empty del); [reflexivity |].
    destruct (Empty va); [reflexivity |].
    destruct (Int_LTE v ZeroInt); reflexivity.
  - intros ps. unfold MsgIndexDelegate.ValidateBasic; cbn.
    destruct (Empty del) eqn:Hdel; guards; [split; [discriminate | tauto] |].
    rewrite checkPortions_None_iff.
    split; [intros Hall; split; [assumption |] | intros [_ Hall]];
      eapply Forall_impl; try exact Hall; intros p Hp;
      apply (portionOk_as_Delegate del p Hdel); exact Hp.
Qed.

Lemma checkPortions_redenominate (f : string -> string) (ps : list ValidatorPortion) :
  MsgIndexDelegate.checkPortions (map (redenominate f) ps) =
    MsgIndexDelegate.checkPortions ps.
Proof.
  induction ps as [| p ps IH]; cbn; [reflexivity |].
  rewrite IH. reflexivity.
Qed.

(** X12.  [MsgIndexDelegate.ValidateBasic] never looks at a denomination:
    neither the message's [Denomination] nor the denominations of the
    portions' coins change the result, so an empty denomination and
    portions in different coins pass like any other. *)
Theorem IndexDelegate_ignores_denominations
  (del : AccAddress) (ps : list ValidatorPortion) (denom denom' : string)
  (f : string -> string) :
  MsgIndexDelegate.ValidateBasic
    (MsgIndexDelegate.mk del (map (redenominate f) ps) denom') =
  MsgIndexDelegate.ValidateBasic (MsgIndexDelegate.mk del ps denom).
Proof.
  unfold MsgIndexDelegate.ValidateBasic; cbn.
  rewrite checkPortions_redenominate. reflexivity.
Qed.

(** X13.  Whether an indexed delegation passes does not depend on the
    order of its portions, nor on a validator being named twice: a
    reordering of a passing list passes (the rejection returned for a
    failing list may differ, since the first failing portion decides). *)
Theorem IndexDelegate_acceptance_permutation
  (del : AccAddress) (ps qs : list ValidatorPortion) (denom : string) :
  Permutation ps qs ->
  (MsgIndexDelegate.ValidateBasic (MsgIndexDelegate.mk del ps denom) = None <->
   MsgIndexDelegate.ValidateBasic (MsgIndexDelegate.mk del qs denom) = None).
Proof.
  intros Hperm. unfold MsgIndexDelegate.ValidateBasic; cbn.
  destruct (Empty del); [tauto |].
  rewrite !checkPortions_None_iff.
  split; apply Permutation_Forall; [| symmetry]; exact Hperm.
Qed.

(** Two portions and their swap. *)
Lemma IndexDelegate_acceptance_permutation_witness :
  MsgIndexDelegate.ValidateBasic
    (MsgIndexDelegate.mk Samples.addrA Samples.twoPortionsSwapped "stake") = None.
Proof.
  apply (IndexDelegate_acceptance_permutation Samples.addrA
           Samples.twoPortions Samples.twoPortionsSwapped "stake").
  - apply perm_swap.
  - reflexivity.
Defined.

(** ** More on the JSON transcoding *)

(** X14.  What [MarshalJSON] returns: it panics exactly when the public
    key has no bech32 text (the call that must succeed panics, and the JSON
    library is then not reached) or the JSON library panics, and it returns
    exactly what the JSON library returns for the wire struct carrying the
    key's text. *)
Theorem MarshalJSON_outcome (cdc : Transcoder) (msg : MsgCreateValidator.t) :
  (forall reason,
     CreateValidatorJSON.MarshalJSON cdc msg = Panic reason <->
       MustBech32ifyConsPub cdc (MsgCreateValidator.PubKey msg) = Panic reason \/
       exists pub,
         MustBech32ifyConsPub cdc (MsgCreateValidator.PubKey msg) = Ret pub /\
         json_Marshal cdc (CreateValidatorJSON.wireOf msg pub) = Panic reason) /\
  (forall out,
     CreateValidatorJSON.MarshalJSON cdc msg = Ret out <->
       exists pub,
         MustBech32ifyConsPub cdc (MsgCreateValidator.PubKey msg) = Ret pub /\
         json_Marshal cdc (CreateValidatorJSON.wireOf msg pub) = Ret out).
Proof.
  unfold CreateValidatorJSON.MarshalJSON.
  destruct (MustBech32ifyConsPub cdc (MsgCreateValidator.PubKey msg)) as [pub | r];
    cbn.
  - fold (CreateValidatorJSON.wireOf msg pub). split.
    + intros reason. split.
      * intros H. right. exists pub. auto.
      * intros [H | (pub' & [= <-] & H)]; [discriminate | exact H].
    + intros out. split.
      * intros H. exists pub. auto.
      * intros (pub' & [= <-] & H). exact H.
  - split.
    + intros reason. split.
      * intros [= <-]. left. reflexivity.
      * intros [[= <-] | (pub' & H & _)]; [reflexivity | discriminate].
    + intros out. split; [discriminate |]. intros (pub' & H & _). discriminate.
Qed.

Lemma UnmarshalJSON_independent cdc bz msg0 msg1 msg :
  CreateValidatorJSON.UnmarshalJSON cdc msg0 bz = Ret (msg, None) ->
  CreateValidatorJSON.UnmarshalJSON cdc msg1 bz = Ret (msg, None).
Proof.
  unfold CreateValidatorJSON.UnmarshalJSON.
  destruct (json_Unmarshal cdc bz) as [[j [e|]] | r]; cbn; try discriminate.
  destruct (GetConsPubKeyBech32 cdc (jPubKey j)) as [[pk [e|]] | r]; cbn;
    try discriminate.
  intros [= <-]. reflexivity.
Qed.

(** X15.  A successful [UnmarshalJSON] assigns every field of the
    receiver: the message it leaves does not depend on what the receiver
    held before. *)
Theorem UnmarshalJSON_overwrites_receiver
  (cdc : Transcoder) (bz : bytes) (msg0 msg : MsgCreateValidator.t) :
  CreateValidatorJSON.UnmarshalJSON cdc msg0 bz = Ret (msg, None) ->
  forall msg1, CreateValidatorJSON.UnmarshalJSON cdc msg1 bz = Ret (msg, None).
Proof.
  unfold CreateValidatorJSON.UnmarshalJSON.
  destruct (json_Unmarshal cdc bz) as [[j [e|]] | r]; cbn; try discriminate.
  destruct (GetConsPubKeyBech32 cdc (jPubKey j)) as [[pk [e|]] | r]; cbn;
    try discriminate.
  intros [= <-] msg1. reflexivity.
Qed.

(** Decoding the sample wire form into two different receivers. *)
Lemma UnmarshalJSON_overwrites_receiver_witness :
  CreateValidatorJSON.UnmarshalJSON Wire.transcoder (Samples.createWithMin 7)
    Samples.createWire = Ret (Samples.createWithMin 50, None).
Proof.
  apply (UnmarshalJSON_overwrites_receiver Wire.transcoder Samples.createWire
           (Samples.createWithMin 150)).
  vm_compute. reflexivity.
Defined.





(** Reading back what [MarshalJSON] wrote, for a valid key. *)
Lemma MarshalJSON_read_back cdc msg bz :
  CreateValidatorJSON.validPubKey cdc (MsgCreateValidator.PubKey msg) ->
  (forall pub, MustBech32ifyConsPub cdc (MsgCreateValidator.PubKey msg) = Ret pub ->
               CreateValidatorJSON.readsBack cdc (CreateValidatorJSON.wireOf msg pub)) ->
  CreateValidatorJSON.MarshalJSON cdc msg = Ret (bz, None) ->
  CreateValidatorJSON.UnmarshalJSON cdc msg bz = Ret (msg, None).
Proof.
  intros (pub & Hpub & Hback) Hjson Hout.
  rewrite (MarshalJSON_wireOf cdc msg pub Hpub) in Hout.
  apply (Hjson pub Hpub) in Hout.
  rewrite (UnmarshalJSON_decoded cdc msg bz _ _ Hout Hback).
  destruct msg; reflexivity.
Qed.

(** X17.  [MarshalJSON] is injective on messages with valid keys when the
    JSON library reads back what it writes: two such messages with the same
    wire form are equal, so no field is lost or merged on the way out. *)
Theorem MarshalJSON_injective
  (cdc : Transcoder) (msg1 msg2 : MsgCreateValidator.t) (bz : bytes) :
  CreateValidatorJSON.validPubKey cdc (MsgCreateValidator.PubKey msg1) ->
  CreateValidatorJSON.validPubKey cdc (MsgCreateValidator.PubKey msg2) ->
  (forall pub, MustBech32ifyConsPub cdc (MsgCreateValidator.PubKey msg1) = Ret pub ->
               CreateValidatorJSON.readsBack cdc (CreateValidatorJSON.wireOf msg1 pub)) ->
  (forall pub, MustBech32ifyConsPub cdc (MsgCreateValidator.PubKey msg2) = Ret pub ->
               CreateValidatorJSON.readsBack cdc (CreateValidatorJSON.wireOf msg2 pub)) ->
  CreateValidatorJSON.MarshalJSON cdc msg1 = Ret (bz, None) ->
  CreateValidatorJSON.MarshalJSON cdc msg2 = Ret (bz, None) ->
  msg1 = msg2.
Proof.
  intros Hk1 Hk2 Hjson1 Hjson2 H1 H2.
  pose proof (MarshalJSON_read_back cdc msg1 bz Hk1 Hjson1 H1) as R1.
  pose proof (MarshalJSON_read_back cdc msg2 bz Hk2 Hjson2 H2) as R2.
  apply (UnmarshalJSON_independent cdc bz msg1 msg2) in R1.
  rewrite R1 in R2. congruence.
Qed.

(** The sample creation built twice, once through the constructor and once
    field by field. *)
Lemma MarshalJSON_injective_witness :
  Samples.createWithMin 50 =
    MsgCreateValidator.mk Samples.someDescription Samples.someCommission 50
      Samples.addrA Samples.addrA Samples.someKey (Samples.stake 100) "share".
Proof.
  apply (MarshalJSON_injective Wire.transcoder _ _ Samples.createWire).
  - apply Wire_validPubKey. discriminate.
  - apply Wire_validPubKey. discriminate.
  - intros pub Hpub bz Hbz.
    vm_compute in Hpub. injection Hpub as <-.
    vm_compute in Hbz. injection Hbz as <-.
    vm_compute. reflexivity.
  - intros pub Hpub bz Hbz.
    vm_compute in Hpub. injection Hpub as <-.
    vm_compute in Hbz. injection Hbz as <-.
    vm_compute. reflexivity.
  - vm_compute. reflexivity.
  - vm_compute. reflexivity.
Defined.

(** ** Type tags *)

(** X18.  The six messages carry six different type tags, whatever their
    content, so a tag names one kind of message; the tag of an undelegation
    is begin_unbonding. *)
Theorem message_types_distinct
  (create : MsgCreateValidator.t) (edit : MsgEditValidator.t)
  (index : MsgIndexDelegate.t) (delegate : MsgDelegate.t)
  (redelegate : MsgBeginRedelegate.t) (undelegate : MsgUndelegate.t) :
  NoDup [MsgCreateValidator.Type_ create; MsgEditValidator.Type_ edit;
         MsgIndexDelegate.Type_ index; MsgDelegate.Type_ delegate;
         MsgBeginRedelegate.Type_ redelegate; MsgUndelegate.Type_ undelegate] /\
  MsgUndelegate.Type_ undelegate = "begin_unbonding".
Proof.
  split; [| reflexivity].
  unfold MsgCreateValidator.Type_, MsgEditValidator.Type_, MsgIndexDelegate.Type_,
    MsgDelegate.Type_, MsgBeginRedelegate.Type_, MsgUndelegate.Type_.
  apply (bool_decide_eq_true_1 _). reflexivity.
Qed.
